(** * CloudWatch Logs Insights query executor

    A shallow embedding of [query_cloudwatch_logs.py]: the time resolver
    ([parse_time]), the log-group validator ([validate_log_groups]), the
    query submitter ([execute_query]), the polling loop
    ([wait_for_results]) and the result formatter ([format_results] with
    its three renderers), followed by the properties established for them.

    Conventions of the embedding.
    - A Python [str] is a Rocq [string], one character per code point; the
      development covers the code points below 256.  The three glyphs of
      the script's own messages that lie above that range are kept the way
      the source file stores them.
    - Exceptions and [sys.exit] are values of [outcome]; what the script
      prints or writes, its sleeps and the query it starts form an [event]
      list.
    - The answers of the remote service and the local clock are
      arguments.
    - A floating-point number is kept as the rational it stands for; the
      results of operations are rounded to the nearest double.  In the
      polling loop the arithmetic is an argument, so that its properties
      hold of any. *)

From Stdlib Require Import ZArith QArith Qround Qcanon String Ascii Lia.
From stdpp Require Import base option list strings gmap sorting pretty.

Local Open Scope string_scope.
Local Open Scope list_scope.
Local Open Scope Z_scope.

(** ** Exceptions, outcomes and effects *)

Inductive exception :=
| ValueError (msg : string)
| IndexError (msg : string)
| OverflowError (msg : string)
| CloudWatchQueryError (msg : string)
| LogGroupNotFoundError (msg : string)
| QuerySyntaxError (msg : string)
| ClientError (code : string) (text : string).
  (* an exception of the AWS client: [e.response['Error']['Code']] (empty
     when there is none) and [str(e)] *)

Inductive outcome (A : Type) :=
| Return (a : A)
| Raise (e : exception)
| Exit (status : Z)                   (* sys.exit *)
| Polling.                            (* still inside [while True] *)
Arguments Return {A} a.
Arguments Raise {A} e.
Arguments Exit {A} status.
Arguments Polling {A}.

(** Sequencing: anything but a normal return ends the computation.  With
    this instance [x ← m; k] reads as two Python statements. *)
#[global] Instance outcome_bind : MBind outcome := fun A B k m =>
  match m with
  | Return a => k a
  | Raise e => Raise e
  | Exit c => Exit c
  | Polling => Polling
  end.

(** [str(e)] *)
Definition str_of_exception (e : exception) : string :=
  match e with
  | ValueError m | IndexError m | OverflowError m | CloudWatchQueryError m
  | LogGroupNotFoundError m | QuerySyntaxError m => m
  | ClientError _ t => t
  end.

Definition nl : string := String (ascii_of_nat 10) EmptyString.
Definition cr : string := String (ascii_of_nat 13) EmptyString.

(** ** The fragment of Python's [str] the script uses *)

Module Py.

Definition ord (c : ascii) : Z := Z.of_N (N_of_ascii c).
Definition chr (n : Z) : ascii := ascii_of_N (Z.to_N n).

Definition between (lo hi n : Z) : bool := (lo <=? n) && (n <=? hi).

(** [str.isspace] on one character. *)
Definition isspace (c : ascii) : bool :=
  let n := ord c in
  between 9 13 n || between 28 32 n || (n =? 133) || (n =? 160).

(** Decimal digits: what [int] and [\d] accept. *)
Definition isdecimal (c : ascii) : bool := between 48 57 (ord c).

(** [str.isdigit] on one character also accepts the superscripts. *)
Definition isdigit_char (c : ascii) : bool :=
  let n := ord c in
  isdecimal c || (n =? 178) || (n =? 179) || (n =? 185).

Definition lower_char (c : ascii) : ascii :=
  let n := ord c in
  if between 65 90 n || (between 192 222 n && negb (n =? 215))
  then chr (n + 32) else c.

Fixpoint lower (s : string) : string :=
  match s with
  | EmptyString => EmptyString
  | String c r => String (lower_char c) (lower r)
  end.

Fixpoint lstrip_by (sp : ascii -> bool) (s : string) : string :=
  match s with
  | EmptyString => EmptyString
  | String c r => if sp c then lstrip_by sp r else s
  end.

Definition strip_by (sp : ascii -> bool) (s : string) : string :=
  String.rev (lstrip_by sp (String.rev (lstrip_by sp s))).

Definition strip : string -> string := strip_by isspace.

Fixpoint all_chars (p : ascii -> bool) (s : string) : bool :=
  match s with
  | EmptyString => true
  | String c r => p c && all_chars p r
  end.

Definition isdigit (s : string) : bool :=
  negb (String.eqb s EmptyString) && all_chars isdigit_char s.

(** [s[-1]]: [None] stands for the IndexError of the empty string. *)
Fixpoint last_char (s : string) : option ascii :=
  match s with
  | EmptyString => None
  | String c EmptyString => Some c
  | String _ r => last_char r
  end.

(** [s[:-1]] *)
Definition but_last (s : string) : string :=
  String.substring 0 (String.length s - 1) s.

(** [s.replace(old, new)] for a one-character [old]. *)
Fixpoint replace (old : ascii) (new : string) (s : string) : string :=
  match s with
  | EmptyString => EmptyString
  | String c r =>
      if Ascii.eqb c old then new +:+ replace old new r
      else String c (replace old new r)
  end.

Definition startswith (s p : string) : bool := String.prefix p s.

(** [sub in s] *)
Fixpoint contains (sub s : string) : bool :=
  String.prefix sub s ||
  match s with
  | EmptyString => false
  | String _ r => contains sub r
  end.

(** [s.ljust(w)] and [c * n] *)
Fixpoint repeat_char (c : ascii) (n : nat) : string :=
  match n with
  | O => EmptyString
  | S k => String c (repeat_char c k)
  end.

Definition ljust (s : string) (w : nat) : string :=
  s +:+ repeat_char " " (w - String.length s).

(** [sep.join(l)] *)
Fixpoint join (sep : string) (l : list string) : string :=
  match l with
  | [] => EmptyString
  | [x] => x
  | x :: r => x +:+ sep +:+ join sep r
  end.

(** [int(s)]: blanks around, an optional sign, decimal digits with single
    underscores between them, and no more than 4300 digits (the default
    of [sys.set_int_max_str_digits], leading zeros counted).  [None]
    stands for ValueError. *)
Definition int_space (c : ascii) : bool :=
  let n := ord c in
  between 9 13 n || (n =? 32) || (n =? 133) || (n =? 160).

Fixpoint int_digits (acc : Z) (after_digit : bool) (s : string) : option Z :=
  match s with
  | EmptyString => if after_digit then Some acc else None
  | String c r =>
      if isdecimal c then int_digits (10 * acc + (ord c - 48)) true r
      else if Ascii.eqb c "_" && after_digit then int_digits acc false r
      else None
  end.

Definition max_str_digits : Z := 4300.

Fixpoint count_digits (s : string) : Z :=
  match s with
  | EmptyString => 0
  | String c r => (if isdecimal c then 1 else 0) + count_digits r
  end.

Definition int (s : string) : option Z :=
  if max_str_digits <? count_digits s then None
  else
    match strip_by int_space s with
    | String "+" r => int_digits 0 false r
    | String "-" r => Z.opp <$> int_digits 0 false r
    | t => int_digits 0 false t
    end.

End Py.

(** ** The fragment of [datetime] the script uses

    A [datetime] is kept as the reading of its own wall clock, in
    microseconds since 1970-01-01T00:00:00 on the proleptic Gregorian
    calendar, with the UTC offset (in microseconds) when it is aware, and its
    [fold].  A [timedelta] is a number of microseconds.  [timestamp]
    and the product [ts * 1000] of the script are floating-point
    numbers, rounded as the interpreter rounds them. *)

Module Datetime.

Import Py.

Record datetime := { wall : Z; tzinfo : option Z; fold : bool }.

Definition us_per_second : Z := 1000000.
Definition us_per_day : Z := 86400 * us_per_second.

Definition is_leap (y : Z) : bool :=
  (y mod 4 =? 0) && (negb (y mod 100 =? 0) || (y mod 400 =? 0)).

Definition days_before_year (y : Z) : Z :=
  let p := y - 1 in p * 365 + p / 4 - p / 100 + p / 400.

Definition days_in_month (y m : Z) : Z :=
  if m =? 2 then (if is_leap y then 29 else 28)
  else if (m =? 4) || (m =? 6) || (m =? 9) || (m =? 11) then 30 else 31.

Definition days_before_month (y m : Z) : Z :=
  foldr (fun k acc => days_in_month y k + acc) 0 (seqZ 1 (m - 1)).

Definition ymd2ord (y m d : Z) : Z :=
  days_before_year y + days_before_month y m + d.

Definition epoch_ord : Z := 719163.          (* date(1970, 1, 1).toordinal() *)

(** The constructor, [None] for its ValueError. *)
Definition make (y m d hh mm ss us : Z) (tz : option Z) : option datetime :=
  if between 1 9999 y && between 1 12 m && between 1 (days_in_month y m) d
     && between 0 23 hh && between 0 59 mm && between 0 59 ss
     && between 0 999999 us
  then Some {| wall := ((ymd2ord y m d - epoch_ord) * 86400
                        + hh * 3600 + mm * 60 + ss) * us_per_second + us;
               tzinfo := tz; fold := false |}
  else None.

Definition min_wall : Z := (1 - epoch_ord) * us_per_day.
Definition max_wall : Z := (ymd2ord 9999 12 31 - epoch_ord + 1) * us_per_day - 1.

Definition seconds (v : Z) : Z := v * us_per_second.
Definition minutes (v : Z) : Z := v * 60 * us_per_second.
Definition hours (v : Z) : Z := v * 3600 * us_per_second.
Definition days (v : Z) : Z := v * us_per_day.
Definition weeks (v : Z) : Z := v * 7 * us_per_day.

(** [timedelta(...)] of a computed amount: the day count is bounded. *)
Definition timedelta (us : Z) : outcome Z :=
  if between (-999999999) 999999999 (us / us_per_day)
  then Return us
  else if between (-2147483648) 2147483647 (us / us_per_day) then
    Raise (OverflowError ("days=" +:+ pretty (us / us_per_day)
                          +:+ "; must have magnitude <= 999999999"))
  else Raise (OverflowError "Python int too large to convert to C int").

(** [dt - delta] *)
Definition sub (dt : datetime) (delta : Z) : outcome datetime :=
  let w := wall dt - delta in
  if between min_wall max_wall w
  then Return {| wall := w; tzinfo := tzinfo dt; fold := false |}
  else Raise (OverflowError "date value out of range").

(** [dt.replace(hour=0, minute=0, second=0, microsecond=0)] *)
Definition midnight (dt : datetime) : datetime :=
  {| wall := wall dt - wall dt mod us_per_day;
     tzinfo := tzinfo dt; fold := fold dt |}.

(** The local clock: what [datetime.now()] reads (wall clock and fold),
    and the zone of the platform: the offset of local time, in seconds
    east of UTC, at an instant given in seconds since the epoch. *)
Record clock := { now_wall : Z; now_fold : bool; utcoffset : Z -> Z }.

Definition now (clk : clock) : datetime :=
  {| wall := now_wall clk; tzinfo := None; fold := now_fold clk |}.

Definition min_second : Z := min_wall / us_per_second.
Definition max_second : Z := max_wall / us_per_second.

(** Local wall-clock seconds at the instant [u]; ValueError when that
    falls outside the years 1 to 9999 (the text names the year next to
    the calendar, where the offset of any real zone leaves it). *)
Definition local (clk : clock) (u : Z) : outcome Z :=
  let s := u + utcoffset clk u in
  if s <? min_second then Raise (ValueError "year 0 is out of range")
  else if max_second <? s then Raise (ValueError "year 10000 is out of range")
  else Return s.

(** The instant at which the local clock shows [t]: the search that
    [timestamp] runs for a naive value. *)
Definition local_to_seconds (clk : clock) (t : Z) (fold : bool) : outcome Z :=
  lt ← local clk t;
  let a := lt - t in
  let u1 := t - a in
  t1 ← local clk u1;
  let second_offset (b : Z) : outcome Z :=
    let u2 := t - b in
    t2 ← local clk u2;
    if t2 =? t then Return u2
    else if t1 =? t then Return u1
    else Return (if fold then Z.min u1 u2 else Z.max u1 u2) in
  if t1 =? t then
    let u2 := if fold then u1 + 86400 else u1 - 86400 in
    lt ← local clk u2;
    let b := lt - u2 in
    if a =? b then Return u1 else second_offset b
  else second_offset (t1 - u1).

(** A [float] is kept as the rational it stands for.  [round_ratio n d]
    is the double nearest to [n / d], ties to even (the values met here
    are far from the limits of the format): its 53 leading bits are
    rounded, [k] being the place of the first one. *)
Definition round_ratio (n d : Z) : Q :=
  if n =? 0 then 0%Q
  else
    let a := Z.abs n in
    let l := Z.log2 a - Z.log2 d in
    let k :=
      if (if 0 <=? l then d * 2 ^ l <=? a else d <=? a * 2 ^ (- l))
      then l else l - 1 in
    let e := k - 52 in
    let p := if 0 <=? e then a else a * 2 ^ (- e) in
    let q := if 0 <=? e then d * 2 ^ e else d in
    let m := p / q in
    let r := p mod q in
    let m :=
      if 2 * r <? q then m
      else if q <? 2 * r then m + 1
      else if Z.even m then m else m + 1 in
    let v := Z.sgn n * m in
    if 0 <=? e then inject_Z (v * 2 ^ e) else Qmake v (Z.to_pos (2 ^ (- e))).

Definition to_float (x : Q) : Q :=
  let x := Qred x in round_ratio (Qnum x) (Zpos (Qden x)).

(** [int(x)] of a float *)
Definition float_to_int (x : Q) : Z := Z.quot (Qnum x) (Zpos (Qden x)).

(** [dt.timestamp()]: for an aware value the true quotient of its
    microseconds since the epoch by a million, for a naive one, read in
    the local zone, the sum of its seconds and of its fraction of a
    second. *)
Definition timestamp (clk : clock) (dt : datetime) : outcome Q :=
  match tzinfo dt with
  | Some off => Return (to_float (Qmake (wall dt - off) 1000000))
  | None =>
      u ← local_to_seconds clk (wall dt / us_per_second) (fold dt);
      Return (to_float (inject_Z u
                        + to_float (Qmake (wall dt mod us_per_second) 1000000)))
  end.

(** [int(dt.timestamp() * 1000)] *)
Definition epoch_ms (clk : clock) (dt : datetime) : outcome Z :=
  ts ← timestamp clk dt; Return (float_to_int (to_float (ts * 1000))).

(** *** Parsing *)

Fixpoint take_digits (n : nat) (acc : Z) (s : string) : option (Z * string) :=
  match n with
  | O => Some (acc, s)
  | S k =>
      match s with
      | String c r =>
          if isdecimal c then take_digits k (10 * acc + (ord c - 48)) r
          else None
      | EmptyString => None
      end
  end.

Definition expect (c : ascii) (s : string) : option string :=
  match s with
  | String c' r => if Ascii.eqb c c' then Some r else None
  | EmptyString => None
  end.

(** [datetime.fromisoformat] as the C module of CPython 3.11 has it
    ([datetime_fromisoformat] and its helpers).  It reads the UTF-8
    bytes of the string, which end with a NUL.  [None] stands for
    ValueError. *)
Fixpoint utf8 (s : string) : string :=
  match s with
  | EmptyString => EmptyString
  | String c r =>
      let n := ord c in
      if n <? 128 then String c (utf8 r)
      else String (chr (192 + n / 64)) (String (chr (128 + n mod 64)) (utf8 r))
  end.

(** [*p == '\0'] *)
Definition at_nul (s : string) : bool :=
  match s with
  | EmptyString => true
  | String c _ => ord c =? 0
  end.

Definition byte_is (c : ascii) (k : nat) (b : string) : bool :=
  match String.get k b with
  | Some c' => Ascii.eqb c c'
  | None => false
  end.

Definition digit_at (k : nat) (b : string) : bool :=
  match String.get k b with
  | Some c => isdecimal c
  | None => false
  end.

Fixpoint skip_digits (s : string) : string :=
  match s with
  | String c r => if isdecimal c then skip_digits r else s
  | EmptyString => s
  end.

Fixpoint drop_bytes (n : nat) (s : string) : string :=
  match n, s with
  | S k, String _ r => drop_bytes k r
  | _, _ => s
  end.

(** [_find_isoformat_datetime_separator], for a length of 7 or more *)
Definition find_separator (b : string) : option nat :=
  let len := String.length b in
  if (len =? 7)%nat then Some 7%nat
  else if byte_is "-" 4 b then
    if byte_is "W" 5 b then
      if (len <? 8)%nat then None
      else if (8 <? len)%nat && byte_is "-" 8 b then
        if (len =? 9)%nat then None
        else if (10 <? len)%nat && digit_at 10 b then Some 8%nat
        else Some 10%nat
      else Some 8%nat
    else Some 10%nat
  else if byte_is "W" 4 b then
    let rest := drop_bytes 7 b in
    let idx := (7 + (String.length rest - String.length (skip_digits rest)))%nat in
    if (idx <? 9)%nat then Some idx
    else if Nat.even idx then Some 7%nat else Some 8%nat
  else Some 8%nat.

(** [iso_week1_monday] and [iso_to_ymd], with the ordinal of the day
    for result *)
Definition iso_week1_monday (y : Z) : Z :=
  let first_day := ymd2ord y 1 1 in
  let first_weekday := (first_day + 6) mod 7 in
  let week1_monday := first_day - first_weekday in
  if 3 <? first_weekday then week1_monday + 7 else week1_monday.

Definition iso_to_ord (iso_year iso_week iso_day : Z) : option Z :=
  if negb (between 1 9999 iso_year) then None
  else
    let first_weekday := (ymd2ord iso_year 1 1 + 6) mod 7 in
    let long_year :=
      (first_weekday =? 3) || ((first_weekday =? 2) && is_leap iso_year) in
    if negb (between 1 52 iso_week) && negb ((iso_week =? 53) && long_year)
    then None
    else if negb (between 1 7 iso_day) then None
    else Some (iso_week1_monday iso_year + (iso_week - 1) * 7 + iso_day - 1).

(** The constructor on the ordinal of a day *)
Definition make_ord (ord hh mm ss us : Z) (tz : option Z) : option datetime :=
  if between 1 (ymd2ord 9999 12 31) ord
     && between 0 23 hh && between 0 59 mm && between 0 59 ss
     && between 0 999999 us
  then Some {| wall := ((ord - epoch_ord) * 86400
                        + hh * 3600 + mm * 60 + ss) * us_per_second + us;
               tzinfo := tz; fold := false |}
  else None.

(** [parse_isoformat_date]: the ordinal of the date in the first [len]
    bytes *)
Definition iso_date (b : string) (len : nat) : option Z :=
  '(y, r) ← take_digits 4 0 b;
  let uses_separator := byte_is "-" 0 r in
  let r := if uses_separator then drop_bytes 1 r else r in
  if byte_is "W" 0 r then
    '(w, r) ← take_digits 2 0 (drop_bytes 1 r);
    let read := (if uses_separator then 8 else 7)%nat in
    d ← (if (read <? len)%nat then
           r ← (if uses_separator then expect "-" r else Some r);
           '(d, _) ← take_digits 1 0 r; Some d
         else Some 1);
    iso_to_ord y w d
  else
    '(m, r) ← take_digits 2 0 r;
    r ← (if uses_separator then expect "-" r else Some r);
    '(d, _) ← take_digits 2 0 r;
    if between 1 9999 y && between 1 12 m && between 1 (days_in_month y m) d
    then Some (ymd2ord y m d) else None.

(** [parse_hh_mm_ss_ff] on the [n] bytes at the head of [s]; the bytes
    after them are in sight.  The result holds the components read, the
    microseconds, and whether the C function returns 1. *)
Definition iso_fraction (vals : list Z) (s : string) (n : Z)
    : option (list Z * Z * bool) :=
  let to_parse := Z.min n 6 in
  '(us, r) ← take_digits (Z.to_nat to_parse) 0 s;
  let us := if to_parse <? 6 then us * 10 ^ (6 - to_parse) else us in
  Some (vals, us, negb (at_nul (skip_digits r))).

Fixpoint iso_hms (i : nat) (first has_separator : bool) (vals : list Z)
    (s : string) (n : Z) : option (list Z * Z * bool) :=
  match i with
  | O => iso_fraction vals s n
  | S k =>
      '(v, r) ← take_digits 2 0 s;
      let vals := vals ++ [v] in
      let has_separator := if first then byte_is ":" 0 r else has_separator in
      if n - 3 <=? 0 then Some (vals, 0, negb (at_nul r))
      else if has_separator && byte_is ":" 0 r then
        iso_hms k false has_separator vals (drop_bytes 1 r) (n - 3)
      else if byte_is "." 0 r || byte_is "," 0 r then
        iso_fraction vals (drop_bytes 1 r) (n - 3)
      else if negb has_separator then
        iso_hms k false has_separator vals r (n - 2)
      else None
  end.

Definition parse_hh_mm_ss_ff (s : string) (n : Z)
    : option (Z * Z * Z * Z * bool) :=
  '(vals, us, rv) ← iso_hms 3 true true [] s n;
  Some (nth 0 vals 0, nth 1 vals 0, nth 2 vals 0, us, rv).

(** The place of the zone in a time of [n] bytes: the first Z, + or -,
    or the end *)
Fixpoint tz_scan (s : string) (n : nat) (pos : nat) : nat :=
  match s with
  | String c r =>
      if Ascii.eqb c "Z" || Ascii.eqb c "+" || Ascii.eqb c "-" then pos
      else if (S pos <? n)%nat then tz_scan r n (S pos) else S pos
  | EmptyString => S pos
  end.

(** [parse_isoformat_time] with [tzinfo_from_isoformat_results]: the
    time and the offset of the zone, in microseconds *)
Definition iso_time (s : string) (n : nat)
    : option (Z * Z * Z * Z * option Z) :=
  let tz_pos := tz_scan s n 0 in
  '(hh, mm, ss, us, rv) ← parse_hh_mm_ss_ff s (Z.of_nat tz_pos);
  if (tz_pos =? n)%nat then
    if (rv : bool) then None else Some (hh, mm, ss, us, None)
  else if byte_is "Z" tz_pos s then
    if at_nul (drop_bytes (S tz_pos) s) then Some (hh, mm, ss, us, Some 0)
    else None
  else
    let tzsign := if byte_is "-" tz_pos s then -1 else 1 in
    '(tzhour, tzminute, tzsecond, tzmicrosecond, rv) ←
      parse_hh_mm_ss_ff (drop_bytes (S tz_pos) s) (Z.of_nat n - Z.of_nat tz_pos - 1);
    if (rv : bool) then None
    else
      let tzoffset := tzsign * (tzhour * 3600 + tzminute * 60 + tzsecond) in
      if tzoffset =? 0 then Some (hh, mm, ss, us, Some 0)
      else
        let offset := tzoffset * us_per_second + tzsign * tzmicrosecond in
        if (- us_per_day <? offset) && (offset <? us_per_day)
        then Some (hh, mm, ss, us, Some offset)
        else None.

Definition fromisoformat (s : string) : option datetime :=
  let b := utf8 s in
  let len := String.length b in
  if (len <? 7)%nat then None
  else
    separator_location ← find_separator b;
    day ← iso_date b separator_location;
    if (separator_location <? len)%nat then
      let p := drop_bytes separator_location b in
      let width :=
        match p with
        | String c _ =>
            if ord c <? 128 then 1%nat
            else if 240 <=? ord c then 4%nat
            else if 224 <=? ord c then 3%nat
            else 2%nat
        | EmptyString => 1%nat
        end in
      '(hh, mm, ss, us, tz) ←
        iso_time (drop_bytes width p) (len - separator_location - width);
      make_ord day hh mm ss us tz
    else make_ord day 0 0 0 0 None.

(** [datetime.strptime] for the two formats of the script.  Each directive
    is a group of alternatives; as the literals between them are neither
    digits nor blanks, a group matches exactly the text before the next
    literal. *)
Fixpoint split_at (p : ascii -> bool) (s : string) : option (string * string) :=
  match s with
  | EmptyString => None
  | String c r =>
      if p c then Some (EmptyString, r)
      else '(a, b) ← split_at p r; Some (String c a, b)
  end.

(** one or two decimal digits with a value in [lo..hi] *)
Definition field (lo hi : Z) (s : string) : option Z :=
  '(v, r) ← match s with
             | String _ EmptyString => take_digits 1 0 s
             | _ => take_digits 2 0 s
             end;
  if String.eqb r EmptyString && between lo hi v then Some v else None.

(** [%d] also takes a blank before a single digit *)
Definition field_d (s : string) : option Z :=
  match s with
  | String " " r => match r with
                    | String _ EmptyString => field 1 9 r
                    | _ => None
                    end
  | _ => field 1 31 s
  end.

Definition field_Y (s : string) : option Z :=
  '(y, r) ← take_digits 4 0 s;
  if String.eqb r EmptyString then Some y else None.

Definition is_char (c : ascii) : ascii -> bool := Ascii.eqb c.

(** [strptime(s, "%Y-%m-%d")] *)
Definition strptime_date (s : string) : option datetime :=
  '(ys, r) ← split_at (is_char "-") s;
  y ← field_Y ys;
  '(ms, r) ← split_at (is_char "-") r;
  m ← field 1 12 ms;
  d ← field_d r;
  make y m d 0 0 0 0 None.

(** [strptime(s, "%Y-%m-%dT%H:%M:%S")]; the literal T matches either case *)
Definition strptime_datetime (s : string) : option datetime :=
  '(ys, r) ← split_at (is_char "-") s;
  y ← field_Y ys;
  '(ms, r) ← split_at (is_char "-") r;
  m ← field 1 12 ms;
  '(ds, r) ← split_at (fun c => is_char "T" c || is_char "t" c) r;
  d ← field_d ds;
  '(hs, r) ← split_at (is_char ":") r;
  hh ← field 0 23 hs;
  '(mins, r) ← split_at (is_char ":") r;
  mm ← field 0 59 mins;
  ss ← field 0 61 r;
  make y m d hh mm ss 0 None.

End Datetime.

Import Datetime.

(** ** TimeResolver: [parse_time] *)

(** The dict of named ranges, with its lookup. *)
Definition named_ranges : list (string * Z) :=
  [("last-hour", hours 1); ("last-24h", hours 24); ("last-day", days 1);
   ("last-week", weeks 1); ("yesterday", days 1); ("today", hours 0)].

Fixpoint assoc {A} (k : string) (d : list (string * A)) : option A :=
  match d with
  | [] => None
  | (k', v) :: r => if String.eqb k k' then Some v else assoc k r
  end.

Definition time_format_message (time_str : string) : string :=
  "Unable to parse time format: " +:+ time_str +:+ nl +:+
  "Supported formats: ISO 8601, Unix ms, relative (1h, 2d), named (last-hour, now)".

(** [try: body except ValueError: pass], followed by [rest]. *)
Definition try_ValueError {A} (body rest : outcome A) : outcome A :=
  match body with
  | Raise (ValueError _) => rest
  | o => o
  end.

(** A parser of the library: its ValueError is always caught here, the
    text is not modelled. *)
Definition parsed {A} (o : option A) : outcome A :=
  match o with
  | Some a => Return a
  | None => Raise (ValueError "invalid literal")
  end.

(** Lines 123 to 150: the 13-digit epoch, then the three date formats. *)
Definition parse_absolute (clk : clock) (time_str : string) : outcome Z :=
  if Py.isdigit time_str && (String.length time_str =? 13)%nat then
    match Py.int time_str with
    | Some n => Return n
    | None => Raise (ValueError ("invalid literal for int() with base 10: '"
                                 +:+ time_str +:+ "'"))
    end
  else
    try_ValueError
      (dt ← parsed (fromisoformat (Py.replace "Z" "+00:00" time_str));
       epoch_ms clk dt)
      (try_ValueError
         (dt ← parsed (strptime_datetime time_str); epoch_ms clk dt)
         (try_ValueError
            (dt ← parsed (strptime_date time_str); epoch_ms clk dt)
            (Raise (ValueError (time_format_message time_str))))).

Definition relative_delta (unit : ascii) (value : Z) : outcome Z :=
  if Ascii.eqb unit "s" then timedelta (seconds value)
  else if Ascii.eqb unit "m" then timedelta (minutes value)
  else if Ascii.eqb unit "h" then timedelta (hours value)
  else timedelta (days value).

Definition parse_time (clk : clock) (time_str : string) : outcome Z :=
  let time_str := Py.strip time_str in
  let lowered := Py.lower time_str in
  if String.eqb lowered "now" then epoch_ms clk (now clk)
  else
    match assoc lowered named_ranges with
    | Some delta =>
        if String.eqb lowered "today" then epoch_ms clk (midnight (now clk))
        else if String.eqb lowered "yesterday" then
          dt ← sub (now clk) (days 1);
          epoch_ms clk (midnight dt)
        else
          dt ← sub (now clk) delta;
          epoch_ms clk dt
    | None =>
        match Py.last_char time_str with
        | None => Raise (IndexError "string index out of range")
        | Some unit =>
            if bool_decide (unit ∈ ["h"; "d"; "m"; "s"]%char) then
              try_ValueError
                (value ← parsed (Py.int (Py.but_last time_str));
                 delta ← relative_delta unit value;
                 dt ← sub (now clk) delta;
                 epoch_ms clk dt)
                (parse_absolute clk time_str)
            else parse_absolute clk time_str
        end
    end.

(** ** Effects *)

Record result_field := { field : string; value : option string }.

Record query_statistics :=
  { recordsMatched : option Q; recordsScanned : option Q; bytesScanned : option Q }.

(** What [get_query_results] answers. *)
Record response :=
  { status : string;
    statistics : option query_statistics;
    results : list (list result_field) }.

Inductive event :=
| Stdout (text : string)                        (* print(text) *)
| Stderr (text : string)                        (* print(text, file=sys.stderr) *)
| FileWrite (path : string) (content : string)  (* the file once it is closed *)
| StartQuery (logGroupNames : list string) (startTime endTime : Z)
             (queryString : string) (limit : Z) (* the request sent *)
| Sleep (secs : Z).                             (* time.sleep *)

(** A run of a method: what it did, and how it ended. *)
Record run (A : Type) := Run { log : list event; result : outcome A }.
Arguments Run {A} log result.
Arguments log {A} r.
Arguments result {A} r.

#[global] Instance run_ret : MRet run := fun A a => Run [] (Return a).

#[global] Instance run_bind : MBind run := fun A B k m =>
  match result m with
  | Return a => Run (log m ++ log (k a)) (result (k a))
  | Raise e => Run (log m) (Raise e)
  | Exit c => Run (log m) (Exit c)
  | Polling => Run (log m) Polling
  end.

Definition emit (e : event) : run unit := Run [e] (Return tt).
Definition lift {A} (o : outcome A) : run A := Run [] o.
Definition raise {A} (e : exception) : run A := Run [] (Raise e).
Definition exit {A} (c : Z) : run A := Run [] (Exit c).

(** The remote service, as the script uses it.  A call answers or raises.
    - [paginate]: the pages of [describe_log_groups] for a name prefix,
      each page being the [logGroupName] of its [logGroups];
    - [describe_log_groups]: the same lookup with a [limit], one page;
    - [start_query]: the [queryId] of the new execution. *)
Record logs_client :=
  { paginate : string -> exception + list (list string);
    describe_log_groups : string -> Z -> exception + list string;
    start_query : list string -> Z -> Z -> string -> Z -> exception + string }.

(** ** ResourceValidator: [validate_log_groups] *)

Definition not_found (e : exception) : bool :=
  Py.contains "ResourceNotFoundException" (str_of_exception e).

(** The [for] loop of lines 167 to 203; [validated_groups] is the list
    being appended to. *)
Fixpoint expand_log_groups (client : logs_client) (log_groups : list string)
    (validated_groups : list string) : outcome (list string) :=
  match log_groups with
  | [] => Return validated_groups
  | log_group_pattern :: rest =>
      if Py.contains "*" log_group_pattern then
        let prefix := Py.replace "*" EmptyString log_group_pattern in
        let attempt :=
          match paginate client prefix with
          | inl e => Raise e
          | inr pages =>
              let validated_groups := validated_groups ++ concat pages in
              if bool_decide (validated_groups = []) then
                Raise (LogGroupNotFoundError
                         ("No log groups found matching pattern: "
                          +:+ log_group_pattern))
              else Return validated_groups
          end in
        match attempt with
        | Raise e =>
            if not_found e then
              Raise (LogGroupNotFoundError
                       ("Log group not found: " +:+ log_group_pattern))
            else Raise e
        | Return validated_groups =>
            expand_log_groups client rest validated_groups
        | o => o
        end
      else
        match describe_log_groups client log_group_pattern 1 with
        | inr _ =>
            expand_log_groups client rest (validated_groups ++ [log_group_pattern])
        | inl e =>
            if not_found e then
              Raise (LogGroupNotFoundError
                       ("Log group not found: " +:+ log_group_pattern +:+ nl +:+
                        "Please verify the log group exists and you have permissions to access it."))
            else Raise e
        end
  end.

Definition truncation_warning (n : nat) : string :=
  "WARNING: CloudWatch limits queries to 20 log groups. " +:+
  "Using first 20 of " +:+ pretty n +:+ " groups.".

Definition validate_log_groups (client : logs_client) (log_groups : list string)
    : run (list string) :=
  validated_groups ← lift (expand_log_groups client log_groups []);
  if (20 <? length validated_groups)%nat then
    emit (Stderr (truncation_warning (length validated_groups)));;
    mret (take 20 validated_groups)
  else mret validated_groups.

(** A catalog that answers prefix lookups from a list of names and never
    raises. *)
Definition with_prefix (prefix : string) (names : list string) : list string :=
  filter (fun n => Py.startswith n prefix = true) names.

Definition catalog_client (names : list string) : logs_client :=
  {| paginate := fun prefix => inr [with_prefix prefix names];
     describe_log_groups := fun prefix limit =>
       inr (take (Z.to_nat limit) (with_prefix prefix names));
     start_query := fun _ _ _ _ _ => inr "q-0001" |}.

(** ** QuerySubmitter: [execute_query] *)

Definition error_code (e : exception) : string :=
  match e with
  | ClientError c _ => c
  | _ => EmptyString
  end.

Definition time_range_message (start_time end_time : string)
    (start_epoch end_epoch : Z) : string :=
  "Start time must be before end time" +:+ nl +:+
  "Start: " +:+ start_time +:+ " (" +:+ pretty start_epoch +:+ ")" +:+ nl +:+
  "End: " +:+ end_time +:+ " (" +:+ pretty end_epoch +:+ ")".

(** [clk_start] and [clk_end] are the clock as the two calls of
    [parse_time] find it. *)
Definition execute_query (client : logs_client) (clk_start clk_end : clock)
    (query : string) (log_groups : list string) (start_time end_time : string)
    (limit : Z) : run string :=
  '(start_epoch, end_epoch) ←
    lift (match (s ← parse_time clk_start start_time;
                 e ← parse_time clk_end end_time;
                 Return (s, e)) with
          | Raise (ValueError m) => Raise (QuerySyntaxError m)
          | o => o
          end);
  if end_epoch <=? start_epoch then
    raise (QuerySyntaxError
             (time_range_message start_time end_time start_epoch end_epoch))
  else
    validated_groups ←
      (let r := validate_log_groups client log_groups in
       match result r with
       | Raise (LogGroupNotFoundError m) =>
           Run (log r ++ [Stderr ("✗ Error: " +:+ m)]) (Exit 1)
       | _ => r
       end);
    emit (Stdout ("Executing query across "
                  +:+ pretty (length validated_groups) +:+ " log group(s)..."));;
    emit (Stdout ("Time range: " +:+ start_time +:+ " to " +:+ end_time));;
    (if (length validated_groups <=? 5)%nat
     then Run (map (fun group => Stdout ("  - " +:+ group)) validated_groups)
              (Return tt)
     else mret tt);;
    emit (StartQuery validated_groups start_epoch end_epoch query limit);;
    match start_query client validated_groups start_epoch end_epoch query limit with
    | inr query_id =>
        emit (Stdout ("Query ID: " +:+ query_id));;
        mret query_id
    | inl e =>
        if Py.contains "MalformedQueryException" (str_of_exception e)
           || Py.contains "InvalidParameterException" (error_code e)
        then raise (QuerySyntaxError
                      ("Invalid query syntax: " +:+ str_of_exception e))
        else if Py.contains "LimitExceededException" (error_code e) then
          emit (Stderr "✗ API rate limit exceeded. Please wait and try again.");;
          exit 1
        else raise (CloudWatchQueryError
                      ("Query execution failed: " +:+ str_of_exception e))
    end.

(** ** PollingLoop: [wait_for_results]

    [time.time()] readings are floating-point numbers.  Their arithmetic
    is not fixed here: a [float_ops] gives the type of the readings,
    the subtraction of two of them, the comparison of a reading with an
    int, and the renderings of numbers in [_print_status_update].  What
    is proved for every [float_ops] holds of the interpreter's. *)

Record float_ops :=
  { reading : Type;
    fsub : reading -> reading -> reading;  (* a - b *)
    fge : reading -> Z -> bool;            (* a >= n, for an int n *)
    elapsed_text : reading -> string;      (* elapsed_str, lines 359 to 364 *)
    count_text : option Q -> string;       (* f"{n:,}", of the default 0 for None *)
    megabytes_text : Q -> string }.        (* f"{bytes / (1024 * 1024):.2f}" *)

(** [if stats:], for the statistics that were sent *)
Definition has_statistics (stats : query_statistics) : bool :=
  bool_decide (recordsMatched stats <> None \/ recordsScanned stats <> None
               \/ bytesScanned stats <> None).

(** The lines [_print_status_update] prints, one [print] each. *)
Definition status_lines (ops : float_ops) (r : response) (elapsed : reading ops)
    : list string :=
  let elapsed_str := elapsed_text ops elapsed in
  ["[" +:+ elapsed_str +:+ "] Status: " +:+ status r]
  ++ match statistics r with
     | Some stats =>
         if has_statistics stats then
           let bytes_scanned := default 0%Q (bytesScanned stats) in
           [if negb (Qle_bool bytes_scanned 0) then
              "  → Scanned: " +:+ count_text ops (recordsScanned stats)
              +:+ " records (" +:+ megabytes_text ops bytes_scanned +:+ " MB)"
            else
              "  → Scanned: " +:+ count_text ops (recordsScanned stats)
              +:+ " records";
            "  → Matched: " +:+ count_text ops (recordsMatched stats)
            +:+ " records"]
         else []
     | None => []
     end
  ++ (if String.eqb (status r) "Complete"
      then ["✓ Query completed successfully in " +:+ elapsed_str] else []).

Definition _print_status_update (ops : float_ops) (r : response)
    (elapsed : reading ops) : run unit :=
  Run (map Stdout (status_lines ops r elapsed)) (Return tt).

Definition is_terminal_state (r : response) : bool :=
  bool_decide (status r ∈ ["Complete"; "Failed"; "Cancelled"; "Timeout"]).

(** The body of [while True], one element of [polls] per iteration: the
    clock at its start and what [get_query_results] does then.  When
    [polls] is used up the loop is still running. *)
Fixpoint poll (ops : float_ops) (start_time last_update_time : reading ops)
    (update_interval : Z) (polls : list (reading ops * (exception + response)))
    : run response :=
  match polls with
  | [] => Run [] Polling
  | (current_time, answer) :: rest =>
      let elapsed := fsub ops current_time start_time in
      match answer with
      | inl e =>
          emit (Stderr ("✗ Error fetching query results: " +:+ str_of_exception e));;
          exit 1
      | inr response =>
          let should_update :=
            fge ops (fsub ops current_time last_update_time) update_interval in
          let update := should_update || is_terminal_state response in
          (if update then _print_status_update ops response elapsed else mret tt);;
          let last_update_time :=
            if update then current_time else last_update_time in
          if is_terminal_state response then
            if String.eqb (status response) "Complete" then mret response
            else if String.eqb (status response) "Failed" then
              emit (Stderr "✗ Query failed");; exit 1
            else if String.eqb (status response) "Cancelled" then
              emit (Stderr "✗ Query was cancelled");; exit 1
            else
              emit (Stderr "✗ Query timed out");; exit 1
          else
            emit (Sleep 2);;
            poll ops start_time last_update_time update_interval rest
      end
  end.

(** [start_time] is the first reading of the clock. *)
Definition wait_for_results (ops : float_ops) (start_time : reading ops)
    (polls : list (reading ops * (exception + response))) (update_interval : Z)
    : run response :=
  emit (Stdout "Waiting for query to complete...");;
  poll ops start_time start_time update_interval polls.

(** ** ResultFormatter *)

(** A [dict] with string keys and values, in insertion order: setting a
    key that is present keeps its place. *)
Definition pydict := list (string * string).

Fixpoint dict_set (k v : string) (d : pydict) : pydict :=
  match d with
  | [] => [(k, v)]
  | (k', v') :: r =>
      if String.eqb k k' then (k, v) :: r else (k', v') :: dict_set k v r
  end.

Fixpoint dict_get (k : string) (d : pydict) : option string :=
  match d with
  | [] => None
  | (k', v) :: r => if String.eqb k k' then Some v else dict_get k r
  end.

Definition keys (d : pydict) : list string := map fst d.

(** [{field['field']: field.get('value', '') for field in result}], one
    field after the other *)
Definition put (d : pydict) (f : result_field) : pydict :=
  dict_set (field f) (default EmptyString (value f)) d.

Definition row_of_result (res : list result_field) : pydict :=
  foldl put [] res.

(** *** [json.dumps(rows, indent=2)] *)

Definition dq : string := String (ascii_of_nat 34) EmptyString.
Definition backslash : string := String (ascii_of_nat 92) EmptyString.

Definition hex_digit (n : Z) : ascii :=
  if n <? 10 then Py.chr (48 + n) else Py.chr (87 + n).

Definition json_escape_char (c : ascii) : string :=
  let n := Py.ord c in
  if n =? 34 then backslash +:+ dq
  else if n =? 92 then backslash +:+ backslash
  else if n =? 10 then backslash +:+ "n"
  else if n =? 13 then backslash +:+ "r"
  else if n =? 9 then backslash +:+ "t"
  else if n =? 8 then backslash +:+ "b"
  else if n =? 12 then backslash +:+ "f"
  else if Py.between 32 126 n then String c EmptyString
  else backslash +:+ "u00"
       +:+ String (hex_digit (n / 16)) (String (hex_digit (n mod 16)) EmptyString).

Fixpoint json_escape (s : string) : string :=
  match s with
  | EmptyString => EmptyString
  | String c r => json_escape_char c +:+ json_escape r
  end.

Definition json_string (s : string) : string := dq +:+ json_escape s +:+ dq.

Definition json_object (d : pydict) : string :=
  match d with
  | [] => "{}"
  | _ =>
      "{" +:+ nl +:+
      Py.join ("," +:+ nl)
        (map (fun kv => "    " +:+ json_string kv.1 +:+ ": " +:+ json_string kv.2) d)
      +:+ nl +:+ "  }"
  end.

Definition json_dumps (rows : list pydict) : string :=
  match rows with
  | [] => "[]"
  | _ =>
      "[" +:+ nl +:+
      Py.join ("," +:+ nl) (map (fun d => "  " +:+ json_object d) rows)
      +:+ nl +:+ "]"
  end.

(** [if output_file:] *)
Definition truthy (output_file : option string) : option string :=
  match output_file with
  | Some EmptyString | None => None
  | Some path => Some path
  end.

Definition _format_json (rows : list pydict) (output_file : option string)
    : run (option string) :=
  let json_output := json_dumps rows in
  match truthy output_file with
  | Some path =>
      emit (FileWrite path json_output);;
      emit (Stdout ("✓ Results saved to: " +:+ path));;
      mret (Some path)
  | None =>
      emit (Stdout json_output);;
      mret None
  end.

(** *** [csv.DictWriter] with its defaults: the excel dialect, an empty
    string for a missing key, ValueError for a key outside [fieldnames]. *)

Definition csv_special (c : ascii) : bool :=
  let n := Py.ord c in (n =? 44) || (n =? 34) || (n =? 13) || (n =? 10).

Definition csv_field (s : string) : string :=
  if negb (Py.all_chars (fun c => negb (csv_special c)) s)
  then dq +:+ Py.replace (ascii_of_nat 34) (dq +:+ dq) s +:+ dq
  else s.

(** One record; a lone empty field is written quoted. *)
Definition csv_record (cells : list string) : string :=
  (match cells with
   | [EmptyString] => dq +:+ dq
   | _ => Py.join "," (map csv_field cells)
   end) +:+ cr +:+ nl.

(** [repr] of a name, exact for names of printable characters without
    quotes or backslashes. *)
Definition repr (s : string) : string := "'" +:+ s +:+ "'".

(** [DictWriter._dict_to_list]; Python lists several wrong names in the
    order of a set. *)
Definition _dict_to_list (fieldnames : list string) (rowdict : pydict)
    : exception + list string :=
  let wrong_fields := filter (fun k => k ∉ fieldnames) (keys rowdict) in
  match wrong_fields with
  | [] => inr (map (fun key => default EmptyString (dict_get key rowdict)) fieldnames)
  | _ => inl (ValueError ("dict contains fields not in fieldnames: "
                          +:+ Py.join ", " (map repr wrong_fields)))
  end.

(** [writerows]: the text written, and the exception that stopped it. *)
Fixpoint writerows (fieldnames : list string) (rows : list pydict)
    : string * option exception :=
  match rows with
  | [] => (EmptyString, None)
  | row :: rest =>
      match _dict_to_list fieldnames row with
      | inl e => (EmptyString, Some e)
      | inr cells =>
          let '(text, e) := writerows fieldnames rest in
          (csv_record cells +:+ text, e)
      end
  end.

Definition _format_csv (rows : list pydict) (fields : list string)
    (output_file : option string) : run (option string) :=
  let '(body, failure) := writerows fields rows in
  let text := csv_record fields +:+ body in
  match truthy output_file, failure with
  | Some path, Some e => emit (FileWrite path text);; raise e
  | Some path, None =>
      emit (FileWrite path text);;
      emit (Stdout ("✓ Results saved to: " +:+ path));;
      mret (Some path)
  | None, Some e => raise e
  | None, None => emit (Stdout text);; mret None
  end.

(** *** The table *)

Definition cell (row : pydict) (f : string) : string :=
  default EmptyString (dict_get f row).

Definition column_widths (rows : list pydict) (fields : list string)
    : gmap string nat :=
  let widths : gmap string nat :=
    list_to_map (map (fun f => (f, String.length f)) fields) in
  let widths :=
    foldl (fun w row =>
             foldl (fun w f =>
                      <[f := Nat.max (w !!! f) (String.length (cell row f))]> w)
                   w fields)
          widths rows in
  Nat.min 50 <$> widths.

Definition clip (v : string) : string :=
  if (50 <? String.length v)%nat then String.substring 0 47 v +:+ "..." else v.

Definition table_lines (rows : list pydict) (fields : list string) : list string :=
  let widths := column_widths rows fields in
  let header := Py.join " | " (map (fun f => Py.ljust f (widths !!! f)) fields) in
  let separator :=
    Py.join "-+-" (map (fun f => Py.repeat_char "-" (widths !!! f)) fields) in
  header :: separator ::
  map (fun row =>
         Py.join " | "
           (map (fun f => Py.ljust (clip (cell row f)) (widths !!! f)) fields))
      rows.

Definition _format_table (rows : list pydict) (fields : list string)
    (output_file : option string) : run (option string) :=
  match rows with
  | [] => mret None
  | _ =>
      let table_output := Py.join nl (table_lines rows fields) in
      match truthy output_file with
      | Some path =>
          emit (FileWrite path table_output);;
          emit (Stdout ("✓ Results saved to: " +:+ path));;
          mret (Some path)
      | None => emit (Stdout table_output);; mret None
      end
  end.

(** *** [format_results] *)

Definition metadata_fields : list string :=
  ["@timestamp"; "@message"; "@logStream"; "@log"].

Definition all_fields (res : list (list result_field)) : gset string :=
  list_to_set (map field (concat res)).

(** Python's [sorted] on distinct strings: ascending code points. *)
Definition sorted (l : list string) : list string := merge_sort String.le l.

Definition schema (res : list (list result_field)) (exclude_metadata : bool)
    : list string :=
  let all_fields := all_fields res in
  let sorted_fields := filter (fun f => f ∈ all_fields) metadata_fields in
  let other_fields :=
    sorted (filter (fun f => f ∉ metadata_fields) (elements all_fields)) in
  let sorted_fields := sorted_fields ++ other_fields in
  if exclude_metadata
  then filter (fun f => Py.startswith f "@" = false) sorted_fields
  else sorted_fields.

Definition no_results : run (option string) :=
  emit (Stdout "No results returned from query");; mret None.

Definition format_results (res : list (list result_field)) (format : string)
    (output_file : option string) (exclude_metadata : bool)
    : run (option string) :=
  match res with
  | [] => no_results
  | [] :: _ => no_results
  | _ =>
      let sorted_fields := schema res exclude_metadata in
      let rows := map row_of_result res in
      if String.eqb format "json" then _format_json rows output_file
      else if String.eqb format "csv" then _format_csv rows sorted_fields output_file
      else if String.eqb format "table" then _format_table rows sorted_fields output_file
      else raise (ValueError ("Unsupported format: " +:+ format))
  end.

(** ** The whole run: [execute_and_save]

    [polls] and [start_clock] are what [wait_for_results] meets.  An
    interrupt from the keyboard is outside the model. *)

(** The three classes of the first [except] clause. *)
Definition is_query_error (e : exception) : bool :=
  match e with
  | CloudWatchQueryError _ | QuerySyntaxError _ | LogGroupNotFoundError _ => true
  | _ => false
  end.

(** [f"cloudwatch_logs_results_{query_id[:8]}.{ext}"] *)
Definition default_output_file (query_id format : string) : string :=
  "cloudwatch_logs_results_" +:+ String.substring 0 8 query_id +:+ "." +:+ format.

Definition execute_and_save (client : logs_client) (clk_start clk_end : clock)
    (ops : float_ops) (start_clock : reading ops)
    (polls : list (reading ops * (exception + response)))
    (query : string) (log_groups : list string) (start_time end_time : string)
    (output_file : option string) (format : string) (limit update_interval : Z)
    (exclude_metadata : bool) : run unit :=
  let body : run unit :=
    query_id ← execute_query client clk_start clk_end query log_groups
                 start_time end_time limit;
    response ← wait_for_results ops start_clock polls update_interval;
    let results := results response in
    let output_file :=
      match output_file with
      | None =>
          if negb (String.eqb format "table")
          then Some (default_output_file query_id format) else None
      | Some path => Some path
      end in
    format_results results format output_file exclude_metadata;;
    mret tt in
  match result body with
  | Raise e =>
      if is_query_error e then
        Run (log body ++ [Stderr ("✗ Error: " +:+ str_of_exception e)]) (Exit 1)
      else
        Run (log body ++ [Stderr ("✗ Unexpected error: " +:+ str_of_exception e)])
            (Exit 1)
  | _ => body
  end.

(** ** [main]: the list of log groups, line 697 *)

(** [s.split(sep)] for a one-character separator *)
Fixpoint split (sep : ascii) (s : string) : list string :=
  match s with
  | EmptyString => [EmptyString]
  | String c r =>
      if Ascii.eqb c sep then EmptyString :: split sep r
      else match split sep r with
           | x :: xs => String c x :: xs
           | [] => [String c EmptyString]
           end
  end.

(** [[lg.strip() for lg in args.log_groups.split(',')]] *)
Definition parse_log_groups (arg : string) : list string :=
  map Py.strip (split "," arg).

(** ** Notions used by the properties *)

(** The number a string of decimal digits denotes. *)
Fixpoint digits_value (acc : Z) (s : string) : Z :=
  match s with
  | EmptyString => acc
  | String c r => digits_value (10 * acc + (Py.ord c - 48)) r
  end.

(** Microseconds in the unit of a relative duration. *)
Definition unit_us (unit : ascii) : Z :=
  if Ascii.eqb unit "s" then 1000000
  else if Ascii.eqb unit "m" then 60000000
  else if Ascii.eqb unit "h" then 3600000000
  else 86400000000.

(** What one pattern adds to the validated groups. *)
Definition resolves (client : logs_client) (pattern : string)
    (names : list string) : Prop :=
  if Py.contains "*" pattern then
    exists pages,
      paginate client (Py.replace "*" EmptyString pattern) = inr pages
      /\ names = concat pages /\ names <> []
  else
    (exists found, describe_log_groups client pattern 1 = inr found)
    /\ names = [pattern].

(** Lines 252 to 287 of [execute_query]: what it does once the two times
    are resolved and in order ([execute_query_resolved] below). *)
Definition submit (client : logs_client) (query : string)
    (log_groups : list string) (start_time end_time : string) (limit : Z)
    (start_epoch end_epoch : Z) : run string :=
  validated_groups ←
    (let r := validate_log_groups client log_groups in
     match result r with
     | Raise (LogGroupNotFoundError m) =>
         Run (log r ++ [Stderr ("✗ Error: " +:+ m)]) (Exit 1)
     | _ => r
     end);
  emit (Stdout ("Executing query across "
                +:+ pretty (length validated_groups) +:+ " log group(s)..."));;
  emit (Stdout ("Time range: " +:+ start_time +:+ " to " +:+ end_time));;
  (if (length validated_groups <=? 5)%nat
   then Run (map (fun group => Stdout ("  - " +:+ group)) validated_groups)
            (Return tt)
   else mret tt);;
  emit (StartQuery validated_groups start_epoch end_epoch query limit);;
  match start_query client validated_groups start_epoch end_epoch query limit with
  | inr query_id =>
      emit (Stdout ("Query ID: " +:+ query_id));;
      mret query_id
  | inl e =>
      if Py.contains "MalformedQueryException" (str_of_exception e)
         || Py.contains "InvalidParameterException" (error_code e)
      then raise (QuerySyntaxError
                    ("Invalid query syntax: " +:+ str_of_exception e))
      else if Py.contains "LimitExceededException" (error_code e) then
        emit (Stderr "✗ API rate limit exceeded. Please wait and try again.");;
        exit 1
      else raise (CloudWatchQueryError
                    ("Query execution failed: " +:+ str_of_exception e))
  end.

Definition is_sleep (e : event) : bool :=
  match e with
  | Sleep _ => true
  | _ => false
  end.

Definition is_start_query (e : event) : bool :=
  match e with
  | StartQuery _ _ _ _ _ => true
  | _ => false
  end.

(** A poll after which the loop is left. *)
Definition final {T} (p : T * (exception + response)) : Prop :=
  match p.2 with
  | inl _ => True
  | inr r => is_terminal_state r = true
  end.

Definition is_file_write (e : event) : bool :=
  match e with
  | FileWrite _ _ => true
  | _ => false
  end.

(** Readings whose neighbours pass the test of the loop,
    [a - b >= update_interval], the first one against [prev]. *)
Fixpoint spaced (ops : float_ops) (update_interval : Z) (prev : reading ops)
    (l : list (reading ops)) : Prop :=
  match l with
  | [] => True
  | x :: r =>
      fge ops (fsub ops x prev) update_interval = true
      /\ spaced ops update_interval x r
  end.

(** ** Reading a row, and what the design document says of the renderers *)

(** Each name of a list once, at the place of its first occurrence. *)
Fixpoint first_occurrences (l : list string) : list string :=
  match l with
  | [] => []
  | x :: r => x :: filter (fun y => y ≠ x) (first_occurrences r)
  end.

(** The value the last field named [k] gives to a row. *)
Fixpoint row_value (k : string) (row : list result_field) : option string :=
  match row with
  | [] => None
  | f :: r =>
      match row_value k r with
      | Some v => Some v
      | None =>
          if String.eqb k (field f) then Some (default EmptyString (value f))
          else None
      end
  end.

Definition unprivileged (res : list (list result_field)) : Prop :=
  Forall (Forall (fun f => Py.startswith (field f) "@" = false)) res.

(** The design document on JSON: inside each object the fields come in the
    order of the computed schema. *)
Definition json_in_schema_order (res : list (list result_field))
    (exclude_metadata : bool) : Prop :=
  Forall (fun obj => keys obj `sublist_of` schema res exclude_metadata)
         (map row_of_result res).

(** The design document on CSV: the output starts with the header line of
    the computed schema. *)
Definition csv_header_is_schema (res : list (list result_field)) : Prop :=
  exists body,
    format_results res "csv" None false
    = Run [Stdout (csv_record (schema res false) +:+ body)] (Return None).

(** What the CSV body is to be: a record per row, in the order of the
    rows, a cell per field of the header, empty where the row has no
    such field. *)
Definition csv_cells (header : list string) (row : list result_field)
    : list string :=
  map (fun k => default EmptyString (row_value k row)) header.

Fixpoint csv_body (header : list string) (res : list (list result_field))
    : string :=
  match res with
  | [] => EmptyString
  | row :: rest => csv_record (csv_cells header row) +:+ csv_body header rest
  end.

(** Polls that find the query still going, and what the loop may print
    for them. *)
Definition running {T} (p : T * (exception + response)) : Prop :=
  exists r, p.2 = inr r /\ is_terminal_state r = false.

Definition interim (ops : float_ops) (block : list event) : Prop :=
  block = [Sleep 2]
  \/ exists r elapsed,
       is_terminal_state r = false
       /\ block = map Stdout (status_lines ops r elapsed).

(** The design document on the polling loop: the terminal state is
    reported by exactly one line.  The lines in question are those
    printed since the last sleep. *)
Definition printed_since_sleep (l : list event) : list string :=
  foldl (fun acc e =>
           match e with
           | Sleep _ => []
           | Stdout text => acc ++ [text]
           | _ => acc
           end) [] l.

Definition one_terminal_line (l : list event) : Prop :=
  length (printed_since_sleep l) = 1%nat.

Definition is_stderr (e : event) : Prop :=
  match e with
  | Stderr _ => True
  | _ => False
  end.

(** ** Sample inputs *)

Definition fv (k v : string) : result_field := {| field := k; value := Some v |}.

(** A machine in a zone of fixed offset, at 2025-12-05T10:00:00Z. *)
Definition zone (offset : Z) : clock :=
  {| now_wall := 1764928800000000 + offset * us_per_second;
     now_fold := false;
     utcoffset := fun _ => offset |}.

Definition lambda_groups : list string :=
  map (fun n : nat => "/aws/lambda/fn-" +:+ pretty n) (seq 0 25).

Definition sparse_rows : list (list result_field) :=
  [[fv "A" "1"; fv "B" "2"]; [fv "B" "3"; fv "C" "4"]; [fv "A" "5"]].

Definition tagged_rows : list (list result_field) :=
  [[fv "@message" "hello"; fv "level" "ERROR"]].

Definition unordered_rows : list (list result_field) :=
  [[fv "b" "1"; fv "a" "2"]].

Definition answer (st : string) : response :=
  {| status := st; statistics := None; results := [] |}.

(** The interpreter's arithmetic.  A float is kept as the rational it
    stands for and every result is rounded to the nearest double.
    Counts are rendered for the whole numbers below 10^16, which is
    what the service sends (as floats). *)
Fixpoint commas (digits_reversed : string) : string :=
  match digits_reversed with
  | String a (String b (String c (String d r as more))) =>
      String a (String b (String c (String "," (commas more))))
  | short => short
  end.

(** [f"{x:,}"] of a whole float *)
Definition grouped (n : Z) : string :=
  (if n <? 0 then "-" else EmptyString)
  +:+ String.rev (commas (String.rev (pretty (Z.abs n)))) +:+ ".0".

Definition two_digits (n : Z) : string :=
  (if n <? 10 then "0" else EmptyString) +:+ pretty n.

(** [f"{x:.2f}"] of a float that is not negative: the hundredth nearest
    to its exact value, ties to even *)
Definition two_decimals (x : Q) : string :=
  let t := (x * 100)%Q in
  let f := Qfloor t in
  let half := Qcompare (t - inject_Z f) (1 # 2) in
  let h := match half with
           | Lt => f
           | Gt => f + 1
           | Eq => if Z.even f then f else f + 1
           end in
  pretty (h / 100) +:+ "." +:+ two_digits (h mod 100).

Definition binary64 : float_ops :=
  {| reading := Q;
     fsub := fun a b => to_float (a - b);
     fge := fun x n => Qle_bool (inject_Z n) x;
     elapsed_text := fun elapsed =>
       if Qle_bool 60 elapsed then
         let minutes := float_to_int (to_float (elapsed / 60)) in
         let seconds := Qfloor (elapsed - 60 * inject_Z (Qfloor (elapsed / 60))) in
         pretty minutes +:+ "m " +:+ pretty seconds +:+ "s"
       else pretty (float_to_int elapsed) +:+ "s";
     count_text := fun n =>
       match n with
       | None => "0"
       | Some x => grouped (Qfloor x)
       end;
     megabytes_text := fun bytes => two_decimals (to_float (bytes / 1048576)) |}.

(** The last answer of a query that matched 5 of 1200 records in two
    megabytes. *)
Definition complete_with_statistics : response :=
  {| status := "Complete";
     statistics := Some {| recordsMatched := Some 5%Q;
                           recordsScanned := Some 1200%Q;
                           bytesScanned := Some 2097152%Q |};
     results := [] |}.

(** * Properties *)

(** ** TimeResolver *)

(** Runs the parsing of a literal on the left of an equation, up to the
    reading of the clock. *)
Ltac run_parser :=
  match goal with
  | |- ?lhs = _ =>
      let v := eval lazy -[epoch_ms try_ValueError] in lhs in change lhs with v
  end.

Lemma strip_empty_not_named s :
  Py.strip s = EmptyString ->
  String.eqb (Py.lower (Py.strip s)) "now" = false
  /\ assoc (Py.lower (Py.strip s)) named_ranges = None
  /\ Py.last_char (Py.strip s) = None.
Proof. intros ->. by vm_compute. Qed.

(** C10.  [parse_time] does not end every call with a timestamp or the
    descriptive ValueError: on a string that is empty once stripped, the
    index [time_str[-1]] raises IndexError. *)
Theorem parse_time_blank_raises_IndexError (clk : clock) (s : string) :
  Py.strip s = EmptyString ->
  parse_time clk s = Raise (IndexError "string index out of range").
Proof.
  intros Hs. destruct (strip_empty_not_named s Hs) as (Hnow & Hnamed & Hlast).
  unfold parse_time. by rewrite Hnow, Hnamed, Hlast.
Qed.

Lemma parse_time_blank_raises_IndexError_witness :
  Py.strip "   " = EmptyString
  /\ parse_time (zone 0) "   " = Raise (IndexError "string index out of range")
  /\ parse_time (zone 0) EmptyString = Raise (IndexError "string index out of range").
Proof.
  split; [reflexivity|].
  split; apply parse_time_blank_raises_IndexError; reflexivity.
Defined.

(** Another way out: a relative duration too large for [timedelta] ends
    in OverflowError, which [except ValueError] lets through. *)
Lemma parse_time_huge_duration (clk : clock) :
  parse_time clk "9999999999d"
  = Raise (OverflowError "Python int too large to convert to C int").
Proof. by vm_compute. Qed.

Lemma second_range : min_second = -62135596800 /\ max_second = 253402300799.
Proof. by vm_compute. Qed.

(** In a zone of fixed offset the search of [local_to_seconds] ends at
    once, provided its three probes stay within the calendar. *)
Lemma local_to_seconds_fixed (clk : clock) (off t : Z) :
  (forall u, utcoffset clk u = off) ->
  min_second + 86400 <= t <= max_second ->
  min_second <= t + off <= max_second ->
  local_to_seconds clk t false = Return (t - off).
Proof.
  intros Hoff Ht Hlocal.
  assert (Hloc : forall u, min_second <= u + off <= max_second ->
                           local clk u = Return (u + off)).
  { intros u Hu. unfold local. rewrite Hoff.
    destruct (Z.ltb_spec (u + off) min_second); [lia|].
    destruct (Z.ltb_spec max_second (u + off)); [lia|done]. }
  unfold local_to_seconds.
  rewrite (Hloc t) by done. cbn [mbind outcome_bind].
  replace (t - (t + off - t)) with (t - off) by lia.
  rewrite (Hloc (t - off)) by lia. cbn [mbind outcome_bind].
  replace (t - off + off) with t by lia. rewrite Z.eqb_refl.
  rewrite (Hloc (t - off - 86400)) by lia. cbn [mbind outcome_bind].
  replace (t - off - 86400 + off - (t - off - 86400)) with (t + off - t) by lia.
  by rewrite Z.eqb_refl.
Qed.

(** Whole numbers below 2^53 are floats: rounding leaves them. *)
Lemma round_ratio_int (z : Z) :
  Z.abs z < 2 ^ 53 -> (round_ratio z 1 == inject_Z z)%Q.
Proof.
  intros Hz. unfold round_ratio.
  destruct (Z.eqb_spec z 0) as [->|Hne]; [reflexivity|].
  change (Z.log2 1) with 0. rewrite Z.sub_0_r.
  assert (Ha : 0 < Z.abs z) by lia.
  pose proof (Z.log2_spec (Z.abs z) Ha) as [Hlo Hhi].
  pose proof (Z.log2_nonneg (Z.abs z)) as Hl.
  assert (Hl52 : Z.log2 (Z.abs z) < 53) by (apply Z.log2_lt_pow2; lia).
  set (l := Z.log2 (Z.abs z)) in *.
  destruct (Z.leb_spec 0 l); [|lia].
  rewrite Z.mul_1_l. destruct (Z.leb_spec (2 ^ l) (Z.abs z)); [|lia].
  destruct (Z.leb_spec 0 (l - 52)) as [He|He].
  - replace (l - 52) with 0 by lia. rewrite Z.pow_0_r, Z.mul_1_l.
    rewrite Z.div_1_r, Z.mod_1_r. change (2 * 0 <? 1) with true. cbv iota.
    rewrite Z.mul_1_r. replace (Z.sgn z * Z.abs z) with z by lia. reflexivity.
  - rewrite Z.div_1_r, Z.mod_1_r. change (2 * 0 <? 1) with true. cbv iota.
    assert (Hp : 0 < 2 ^ (- (l - 52))) by (apply Z.pow_pos_nonneg; lia).
    unfold Qeq. cbn [Qnum Qden inject_Z]. rewrite Z2Pos.id by done. lia.
Qed.

Lemma to_float_int (x : Q) (z : Z) :
  (x == inject_Z z)%Q -> Z.abs z < 2 ^ 53 -> (to_float x == inject_Z z)%Q.
Proof.
  intros Hx Hz. unfold to_float.
  rewrite (Qred_complete x (inject_Z z) Hx).
  assert (E : Qred (inject_Z z) = inject_Z z).
  { apply Qred_identity. cbn. apply Z.gcd_1_r. }
  rewrite E. cbn [Qnum Qden inject_Z]. by apply round_ratio_int.
Qed.

Lemma float_to_int_int (x : Q) (z : Z) :
  (x == inject_Z z)%Q -> float_to_int x = z.
Proof.
  unfold Qeq, float_to_int. cbn [Qnum Qden inject_Z]. intros E.
  rewrite Z.mul_1_r in E. rewrite E. apply Z.quot_mul. done.
Qed.

(** The milliseconds of a whole number of seconds *)
Lemma whole_seconds_ms (u : Z) :
  Z.abs u < 2 ^ 43 ->
  float_to_int
    (to_float (to_float (inject_Z u + to_float (Qmake 0 1000000)) * 1000))
  = u * 1000.
Proof.
  intros Hu. apply float_to_int_int.
  assert (E : (to_float (inject_Z u + to_float (Qmake 0 1000000)) == inject_Z u)%Q).
  { apply to_float_int; [|lia].
    change (to_float (Qmake 0 1000000)) with 0%Q. ring. }
  apply to_float_int; [|lia]. rewrite E. rewrite inject_Z_mult. reflexivity.
Qed.

Lemma quot_ms (a off : Z) :
  Z.quot (a * 1000000 - off * 1000000) 1000 = a * 1000 - 1000 * off.
Proof.
  replace (a * 1000000 - off * 1000000) with ((a * 1000 - 1000 * off) * 1000)
    by lia.
  apply Z.quot_mul. lia.
Qed.

(** The timestamp of a naive value that falls on a whole second. *)
Lemma epoch_ms_naive (clk : clock) (off secs : Z) :
  (forall u, utcoffset clk u = off) ->
  min_second + 86400 <= secs <= max_second ->
  min_second <= secs + off <= max_second ->
  epoch_ms clk {| wall := secs * 1000000; tzinfo := None; fold := false |}
  = Return (secs * 1000 - 1000 * off).
Proof.
  intros Hoff Ht Hlocal.
  unfold epoch_ms, timestamp, us_per_second; cbn [tzinfo wall fold].
  rewrite Z.div_mul, Z.mod_mul by lia.
  rewrite (local_to_seconds_fixed clk off) by done.
  cbn [mbind outcome_bind].
  destruct second_range as [Hmins Hmaxs]. rewrite Hmins, Hmaxs in Ht, Hlocal.
  rewrite whole_seconds_ms by lia. f_equal. lia.
Qed.

(** C2.  What [parse_time] returns for the two spellings of 10:00 on
    2025-12-05 on a machine whose zone has the fixed offset [off]: the
    one with Z is read in UTC, the one without a zone in the local zone,
    so the two agree only at offset 0. *)
Theorem parse_time_naive_iso_is_local (clk : clock) (off : Z) :
  (forall u, utcoffset clk u = off) ->
  -86400 <= off <= 86400 ->
  parse_time clk "2025-12-05T10:00:00Z" = Return 1764928800000
  /\ parse_time clk "2025-12-05T10:00:00" = Return (1764928800000 - 1000 * off).
Proof.
  intros Hoff Hrange. split; [reflexivity|].
  run_parser.
  change 1764928800000000 with (1764928800 * 1000000).
  rewrite (epoch_ms_naive clk off) by (done || (destruct second_range as [-> ->]; lia)).
  reflexivity.
Qed.

Lemma parse_time_naive_iso_is_local_witness :
  parse_time (zone 3600) "2025-12-05T10:00:00Z" = Return 1764928800000
  /\ parse_time (zone 3600) "2025-12-05T10:00:00"
     = Return (1764928800000 - 1000 * 3600).
Proof.
  apply parse_time_naive_iso_is_local; [reflexivity | lia].
Defined.

(** The two readings one hour east of Greenwich. *)
Lemma parse_time_naive_iso_utc_plus_1 :
  parse_time (zone 3600) "2025-12-05T10:00:00Z" = Return 1764928800000
  /\ parse_time (zone 3600) "2025-12-05T10:00:00" = Return 1764925200000.
Proof. by vm_compute. Qed.

(** ** ResourceValidator *)

(** C7.  When the patterns expand to [names], [validate_log_groups]
    returns the first 20 of them and warns on stderr with their number if
    there are more than 20; otherwise it returns them all and prints
    nothing. *)
Theorem validate_log_groups_cap (client : logs_client)
    (log_groups names : list string) :
  expand_log_groups client log_groups [] = Return names ->
  ((20 < length names)%nat ->
     validate_log_groups client log_groups
     = Run [Stderr ("WARNING: CloudWatch limits queries to 20 log groups. "
                    +:+ "Using first 20 of " +:+ pretty (length names)
                    +:+ " groups.")]
           (Return (take 20 names))
     /\ length (take 20 names) = 20%nat)
  /\ ((length names <= 20)%nat ->
        validate_log_groups client log_groups = Run [] (Return names)).
Proof.
  intros Hexp. unfold validate_log_groups. rewrite Hexp.
  split; intros Hlen.
  - apply Nat.ltb_lt in Hlen as Hb.
    unfold mbind, run_bind, lift; cbn [result log]. rewrite Hb.
    split; [reflexivity|]. rewrite length_take. lia.
  - assert (Hb : (20 <? length names)%nat = false) by (apply Nat.ltb_ge; lia).
    unfold mbind, run_bind, lift; cbn [result log]. by rewrite Hb.
Qed.

Lemma validate_log_groups_cap_witness :
  expand_log_groups (catalog_client lambda_groups) ["/aws/lambda/*"] []
  = Return lambda_groups
  /\ length lambda_groups = 25%nat
  /\ validate_log_groups (catalog_client lambda_groups) ["/aws/lambda/*"]
     = Run [Stderr ("WARNING: CloudWatch limits queries to 20 log groups. "
                    +:+ "Using first 20 of 25 groups.")]
           (Return (take 20 lambda_groups)).
Proof.
  assert (H : expand_log_groups (catalog_client lambda_groups)
                ["/aws/lambda/*"] [] = Return lambda_groups) by by vm_compute.
  split; [exact H|]. split; [reflexivity|].
  destruct (validate_log_groups_cap _ _ _ H) as [Hmore _].
  destruct Hmore as [Hrun _]; [vm_compute; lia|]. exact Hrun.
Defined.

(** C3.  A wildcard that matches nothing is only noticed while nothing
    has been collected: after a pattern that contributed a name, the
    empty match passes silently. *)
Theorem validate_log_groups_empty_wildcard_passes :
  with_prefix "/nomatch/" ["/aws/lambda/a"] = []
  /\ validate_log_groups (catalog_client ["/aws/lambda/a"])
       ["/aws/lambda/a"; "/nomatch/*"]
     = Run [] (Return ["/aws/lambda/a"])
  /\ validate_log_groups (catalog_client ["/aws/lambda/a"]) ["/nomatch/*"]
     = Run [] (Raise (LogGroupNotFoundError
                        "No log groups found matching pattern: /nomatch/*")).
Proof. by vm_compute. Qed.

(** C4.  For a name without wildcard the answer of the lookup is not
    read: whenever the lookup answers, whatever it lists, the name is
    returned as valid. *)
Theorem validate_log_groups_literal_unchecked (client : logs_client)
    (name : string) (found : list string) :
  Py.contains "*" name = false ->
  describe_log_groups client name 1 = inr found ->
  validate_log_groups client [name] = Run [] (Return [name]).
Proof.
  intros Hlit Hfound. unfold validate_log_groups.
  cbn [expand_log_groups]. by rewrite Hlit, Hfound.
Qed.

Lemma validate_log_groups_literal_unchecked_witness :
  describe_log_groups (catalog_client ["/aws/lambda/a"]) "/aws/lambda/missing" 1
  = inr []
  /\ validate_log_groups (catalog_client ["/aws/lambda/a"]) ["/aws/lambda/missing"]
     = Run [] (Return ["/aws/lambda/missing"]).
Proof.
  split; [reflexivity|].
  apply (validate_log_groups_literal_unchecked _ _ []); reflexivity.
Defined.

(** The lookup is only heeded when it raises with the text the script
    looks for. *)
Lemma validate_log_groups_literal_raises (client : logs_client)
    (name : string) (e : exception) :
  Py.contains "*" name = false ->
  describe_log_groups client name 1 = inl e ->
  not_found e = true ->
  exists msg,
    validate_log_groups client [name] = Run [] (Raise (LogGroupNotFoundError msg)).
Proof.
  intros Hlit He Hnf. eexists. unfold validate_log_groups.
  cbn [expand_log_groups]. by rewrite Hlit, He, Hnf.
Qed.

(** ** QuerySubmitter *)

(** C9.  When the two times resolve to [start_epoch >= end_epoch],
    [execute_query] raises QuerySyntaxError with both values in its
    message, and does nothing else: in particular no query is started. *)
Theorem execute_query_rejects_empty_range (client : logs_client)
    (clk_start clk_end : clock) (query : string) (log_groups : list string)
    (start_time end_time : string) (limit start_epoch end_epoch : Z) :
  parse_time clk_start start_time = Return start_epoch ->
  parse_time clk_end end_time = Return end_epoch ->
  start_epoch >= end_epoch ->
  execute_query client clk_start clk_end query log_groups start_time end_time limit
  = Run [] (Raise (QuerySyntaxError
                     ("Start time must be before end time" +:+ nl +:+
                      "Start: " +:+ start_time +:+ " (" +:+ pretty start_epoch
                      +:+ ")" +:+ nl +:+
                      "End: " +:+ end_time +:+ " (" +:+ pretty end_epoch +:+ ")"))).
Proof.
  intros Hs He Hge. unfold execute_query. rewrite Hs, He.
  assert (Hb : (end_epoch <=? start_epoch) = true) by (apply Z.leb_le; lia).
  unfold mbind at 1, run_bind, lift; cbn. by rewrite Hb.
Qed.

Lemma execute_query_rejects_empty_range_witness :
  execute_query (catalog_client ["/aws/lambda/a"]) (zone 0) (zone 0)
    "fields @message" ["/aws/lambda/a"] "1733395200000" "1733395200000" 10000
  = Run [] (Raise (QuerySyntaxError
                     ("Start time must be before end time" +:+ nl +:+
                      "Start: " +:+ "1733395200000" +:+ " ("
                      +:+ pretty 1733395200000 +:+ ")" +:+ nl +:+
                      "End: " +:+ "1733395200000" +:+ " ("
                      +:+ pretty 1733395200000 +:+ ")"))).
Proof.
  apply execute_query_rejects_empty_range; [reflexivity | reflexivity | lia].
Defined.

(** ** PollingLoop *)

Lemma run_eta {A} (r : run A) : r = Run (log r) (result r).
Proof. by destruct r. Qed.

Lemma log_emit_then {A} (e : event) (m : run A) :
  log (emit e;; m) = e :: log m.
Proof. reflexivity. Qed.

Lemma result_emit_then {A} (e : event) (m : run A) :
  result (emit e;; m) = result m.
Proof. reflexivity. Qed.

Lemma terminal_status (r : response) :
  is_terminal_state r = true ->
  status r = "Complete" \/ status r = "Failed"
  \/ status r = "Cancelled" \/ status r = "Timeout".
Proof.
  unfold is_terminal_state. intros H%bool_decide_eq_true.
  repeat (apply elem_of_cons in H as [H|H]; [tauto|]).
  by apply elem_of_nil in H.
Qed.

Section Polling.

Variables (ops : float_ops) (t0 : reading ops) (interval : Z).

(** One iteration that finds a terminal state. *)
Lemma poll_terminal (last t : reading ops) (r : response)
    (rest : list (reading ops * (exception + response))) :
  is_terminal_state r = true ->
  exists tail,
    (Forall is_stderr tail /\ (status r = "Complete" -> tail = []))
    /\ log (poll ops t0 last interval ((t, inr r) :: rest))
       = map Stdout (status_lines ops r (fsub ops t t0)) ++ tail
    /\ result (poll ops t0 last interval ((t, inr r) :: rest))
       = if String.eqb (status r) "Complete" then Return r else Exit 1.
Proof.
  intros Hterm. cbn [poll]. rewrite Hterm, orb_true_r.
  unfold _print_status_update, mbind, run_bind; cbn [result log].
  destruct (terminal_status r Hterm) as [H|[H|[H|H]]]; rewrite H;
    cbn [String.eqb Ascii.eqb Bool.eqb result log mret run_ret emit exit app].
  - exists []. by repeat split.
  - eexists [_]. repeat split; [by repeat constructor|done].
  - eexists [_]. repeat split; [by repeat constructor|done].
  - eexists [_]. repeat split; [by repeat constructor|done].
Qed.

(** One iteration that finds the query still going: at most one update,
    gated by the interval, then the sleep and the next iteration. *)
Lemma poll_running (last t : reading ops) (r : response)
    (rest : list (reading ops * (exception + response))) :
  is_terminal_state r = false ->
  let due := fge ops (fsub ops t last) interval in
  let next := poll ops t0 (if due then t else last) interval rest in
  log (poll ops t0 last interval ((t, inr r) :: rest))
  = (if due then map Stdout (status_lines ops r (fsub ops t t0)) else [])
    ++ Sleep 2 :: log next
  /\ result (poll ops t0 last interval ((t, inr r) :: rest)) = result next.
Proof.
  intros Hrun. cbn [poll]. rewrite Hrun, orb_false_r.
  destruct (fge ops (fsub ops t last) interval);
    unfold _print_status_update, mbind, run_bind;
    cbn [result log mret run_ret emit app];
    by destruct (result (poll _ _ _ _ _)).
Qed.

Lemma poll_reaches_terminal (t : reading ops) (r : response)
    (rest pre : list (reading ops * (exception + response))) :
  is_terminal_state r = true ->
  Forall running pre ->
  forall last, exists blocks tail,
    Forall (interim ops) blocks /\ Forall is_stderr tail
    /\ log (poll ops t0 last interval (pre ++ (t, inr r) :: rest))
       = concat blocks ++ map Stdout (status_lines ops r (fsub ops t t0)) ++ tail
    /\ result (poll ops t0 last interval (pre ++ (t, inr r) :: rest))
       = if String.eqb (status r) "Complete" then Return r else Exit 1.
Proof.
  intros Hterm Hpre. induction Hpre as [|[tc ans] pre Hrun _ IH]; intros last.
  - destruct (poll_terminal last t r rest Hterm)
      as (tail & [Htail _] & Hlog & Hres).
    exists [], tail. by repeat split.
  - destruct Hrun as (rc & Hans & Hrc). cbn in Hans. subst ans.
    rewrite <- app_comm_cons.
    destruct (poll_running last tc rc (pre ++ (t, inr r) :: rest) Hrc)
      as [Hlog Hres].
    cbn zeta in Hlog, Hres. rewrite Hlog, Hres.
    destruct (IH (if fge ops (fsub ops tc last) interval then tc else last))
      as (blocks & tail & Hblocks & Htail & Hlog' & Hres').
    rewrite Hlog', Hres'.
    exists ((if fge ops (fsub ops tc last) interval
             then [map Stdout (status_lines ops rc (fsub ops tc t0))] else [])
            ++ [Sleep 2] :: blocks), tail.
    repeat split; [|done|].
    + apply Forall_app. split; [|constructor; [by left|done]].
      destruct (fge _ _ _); [|done]. constructor; [right; eauto|constructor].
    + destruct (fge _ _ _); cbn [app concat]; by rewrite <- ?app_assoc.
Qed.

(** C6.  Whatever the interval, the clock and its arithmetic, once the
    polls reach a terminal answer [r] the loop prints the update of [r]
    exactly once, at that poll: before it come only sleeps and updates
    of answers that were not terminal, after it only lines on stderr;
    and it returns [r] if the query is complete.  An update is a block
    of lines: the status line, two lines of statistics when the answer
    carries some, and the line of completion when the state is
    Complete.  For answers Running, Running, Complete the log is spelled
    out: the two updates gated by the interval, and the one of the
    completion. *)
Theorem wait_for_results_terminal_update :
  (forall pre t r rest,
     Forall running pre -> is_terminal_state r = true ->
     exists blocks tail,
       Forall (interim ops) blocks /\ Forall is_stderr tail
       /\ log (wait_for_results ops t0 (pre ++ (t, inr r) :: rest) interval)
          = Stdout "Waiting for query to complete..."
            :: concat blocks
            ++ map Stdout (status_lines ops r (fsub ops t t0)) ++ tail
       /\ result (wait_for_results ops t0 (pre ++ (t, inr r) :: rest) interval)
          = if String.eqb (status r) "Complete" then Return r else Exit 1)
  /\ (forall r elapsed,
        exists statistics_lines,
          status_lines ops r elapsed
          = ("[" +:+ elapsed_text ops elapsed +:+ "] Status: " +:+ status r)
            :: statistics_lines
            ++ (if String.eqb (status r) "Complete"
                then ["✓ Query completed successfully in "
                      +:+ elapsed_text ops elapsed]
                else [])
          /\ length statistics_lines
             = match statistics r with
               | Some stats => if has_statistics stats then 2%nat else 0%nat
               | None => 0%nat
               end)
  /\ (forall t1 t2 t3 r1 r2 r3,
        status r1 = "Running" -> status r2 = "Running" ->
        status r3 = "Complete" ->
        let due1 := fge ops (fsub ops t1 t0) interval in
        let last := if due1 then t1 else t0 in
        let due2 := fge ops (fsub ops t2 last) interval in
        wait_for_results ops t0 [(t1, inr r1); (t2, inr r2); (t3, inr r3)] interval
        = Run (Stdout "Waiting for query to complete..."
               :: (if due1 then map Stdout (status_lines ops r1 (fsub ops t1 t0))
                   else [])
               ++ Sleep 2
               :: (if due2 then map Stdout (status_lines ops r2 (fsub ops t2 t0))
                   else [])
               ++ Sleep 2
               :: map Stdout (status_lines ops r3 (fsub ops t3 t0)))
              (Return r3)).
Proof.
  split; [|split].
  - intros pre t r rest Hpre Hterm.
    destruct (poll_reaches_terminal t r rest pre Hterm Hpre t0)
      as (blocks & tail & Hblocks & Htail & Hlog & Hres).
    exists blocks, tail. unfold wait_for_results.
    rewrite log_emit_then, result_emit_then, Hlog, Hres. by repeat split.
  - intros r elapsed. unfold status_lines. cbn zeta. cbn [app].
    eexists. split; [reflexivity|].
    destruct (statistics r) as [stats|]; [|done]. by destruct (has_statistics stats).
  - intros t1 t2 t3 r1 r2 r3 H1 H2 H3 due1 last due2.
    assert (Hr1 : is_terminal_state r1 = false)
      by (unfold is_terminal_state; by rewrite H1).
    assert (Hr2 : is_terminal_state r2 = false)
      by (unfold is_terminal_state; by rewrite H2).
    assert (Hr3 : is_terminal_state r3 = true)
      by (unfold is_terminal_state; by rewrite H3).
    rewrite (run_eta (wait_for_results _ _ _ _)). unfold wait_for_results.
    rewrite log_emit_then, result_emit_then.
    destruct (poll_running t0 t1 r1 [(t2, inr r2); (t3, inr r3)] Hr1)
      as [E1 E1'].
    destruct (poll_running last t2 r2 [(t3, inr r3)] Hr2) as [E2 E2'].
    cbn zeta in E1, E1', E2, E2'. fold due1 last in E1, E1'. fold due2 in E2, E2'.
    rewrite E1, E1', E2, E2'.
    destruct (poll_terminal (if due2 then t2 else last) t3 r3 [] Hr3)
      as (tail & [_ Htail] & E3 & E3').
    rewrite E3, E3', H3, (Htail H3), app_nil_r. reflexivity.
Qed.

End Polling.

Lemma wait_for_results_terminal_update_witness :
  wait_for_results binary64 100%Q
    [(100%Q, inr (answer "Running")); (102%Q, inr (answer "Running"));
     (104%Q, inr (answer "Complete"))] 30
  = Run [Stdout "Waiting for query to complete..."; Sleep 2; Sleep 2;
         Stdout "[4s] Status: Complete";
         Stdout "✓ Query completed successfully in 4s"]
        (Return (answer "Complete")).
Proof.
  exact (proj2 (proj2 (wait_for_results_terminal_update binary64 100%Q 30))
           100%Q 102%Q 104%Q (answer "Running") (answer "Running")
           (answer "Complete") eq_refl eq_refl eq_refl).
Defined.

(** Readings 0.7 and 30.7 with an interval of 30: the difference of the
    two doubles is rounded to 30, so the update is due, while the exact
    difference of the two is a little less than 30. *)
Lemma binary64_difference_rounds :
  let t0 := to_float (7 # 10) in
  let t1 := to_float (307 # 10) in
  fge binary64 (fsub binary64 t1 t0) 30 = true
  /\ Qle_bool 30 (t1 - t0) = false.
Proof. by vm_compute. Qed.

(** The run of the design document, statistics on the last answer only:
    the terminal state is reported by four lines. *)
Lemma terminal_update_counterexample :
  log (wait_for_results binary64 100%Q
         [(100%Q, inr (answer "Running")); (102%Q, inr (answer "Running"));
          (104%Q, inr complete_with_statistics)] 30)
  = [Stdout "Waiting for query to complete..."; Sleep 2; Sleep 2;
     Stdout "[4s] Status: Complete";
     Stdout "  → Scanned: 1,200.0 records (2.00 MB)";
     Stdout "  → Matched: 5.0 records";
     Stdout "✓ Query completed successfully in 4s"]
  /\ ~ one_terminal_line
        (log (wait_for_results binary64 100%Q
                [(100%Q, inr (answer "Running")); (102%Q, inr (answer "Running"));
                 (104%Q, inr complete_with_statistics)] 30)).
Proof.
  assert (H : log (wait_for_results binary64 100%Q
                     [(100%Q, inr (answer "Running"));
                      (102%Q, inr (answer "Running"));
                      (104%Q, inr complete_with_statistics)] 30)
              = [Stdout "Waiting for query to complete..."; Sleep 2; Sleep 2;
                 Stdout "[4s] Status: Complete";
                 Stdout "  → Scanned: 1,200.0 records (2.00 MB)";
                 Stdout "  → Matched: 5.0 records";
                 Stdout "✓ Query completed successfully in 4s"])
    by by vm_compute.
  split; [exact H|]. rewrite H. by vm_compute.
Qed.

(** ** ResultFormatter *)

(** C1.  With [exclude_metadata] set the fields that start with the
    marker leave the schema, and the table leaves them out; but the JSON
    renderer is not given the schema and prints them, and the CSV writer
    meets a key outside its field names and raises. *)
Theorem exclude_metadata_reaches_only_the_table :
  schema tagged_rows true = ["level"]
  /\ format_results tagged_rows "table" None true
     = Run [Stdout ("level" +:+ nl +:+ "-----" +:+ nl +:+ "ERROR")] (Return None)
  /\ format_results tagged_rows "json" None true
     = Run [Stdout (json_dumps [[("@message", "hello"); ("level", "ERROR")]])]
           (Return None)
  /\ Py.contains "hello"
       (json_dumps [[("@message", "hello"); ("level", "ERROR")]]) = true
  /\ format_results tagged_rows "csv" None true
     = Run [] (Raise (ValueError
                        "dict contains fields not in fieldnames: '@message'")).
Proof. by vm_compute. Qed.

(** *** Rows as dicts *)

Lemma keys_dict_set (k v : string) (d : pydict) :
  keys (dict_set k v d) = if decide (k ∈ keys d) then keys d else keys d ++ [k].
Proof.
  unfold keys. induction d as [|[k' v'] d IH]; [done|]. cbn.
  destruct (String.eqb_spec k k') as [->|Hne].
  - rewrite decide_True by left. done.
  - cbn. rewrite IH. destruct (decide (k ∈ map fst d)) as [Hin|Hout].
    + rewrite decide_True by by right. done.
    + rewrite decide_False; [done|]. by intros [?|?]%elem_of_cons.
Qed.

Lemma dict_get_dict_set (k k' v : string) (d : pydict) :
  dict_get k (dict_set k' v d) = if String.eqb k k' then Some v else dict_get k d.
Proof.
  induction d as [|[k0 v0] d IH]; cbn; [done|].
  destruct (String.eqb_spec k' k0) as [->|Hne]; cbn.
  - by destruct (String.eqb k k0).
  - rewrite IH. destruct (String.eqb_spec k k0) as [->|?]; [|done].
    destruct (String.eqb_spec k0 k') as [->|?]; done.
Qed.

Lemma keys_foldl_put (fs : list result_field) (d : pydict) :
  keys (foldl put d fs)
  = keys d ++ filter (fun y => y ∉ keys d) (first_occurrences (map field fs)).
Proof.
  revert d. induction fs as [|f fs IH]; intros d; cbn [foldl map first_occurrences].
  - by rewrite filter_nil, app_nil_r.
  - rewrite IH.
    pose proof (keys_dict_set (field f) (default EmptyString (value f)) d) as E.
    fold (put d f) in E. destruct (decide _) as [Hin|Hout]; rewrite E.
    + rewrite (filter_cons_False (fun y => y ∉ keys d)) by tauto. f_equal.
      rewrite list_filter_filter. apply list_filter_iff. intros y.
      split; [|tauto]. intros Hy. split; [done|]. by intros ->.
    + rewrite (filter_cons_True (fun y => y ∉ keys d)) by done.
      rewrite <- app_assoc. cbn. do 2 f_equal.
      rewrite list_filter_filter. apply list_filter_iff. intros y.
      rewrite not_elem_of_app, not_elem_of_cons.
      pose proof (not_elem_of_nil y). tauto.
Qed.

Lemma filter_True_id (l : list string) : filter (fun y => y ∉ @nil string) l = l.
Proof.
  induction l as [|x l IH]; [done|].
  rewrite filter_cons_True by apply not_elem_of_nil. by rewrite IH.
Qed.

(** The keys of a row's dict: its field names, each at its first place. *)
Lemma keys_row_of_result (row : list result_field) :
  keys (row_of_result row) = first_occurrences (map field row).
Proof.
  unfold row_of_result. rewrite keys_foldl_put. cbn. apply filter_True_id.
Qed.

Lemma dict_get_foldl_put (k : string) (fs : list result_field) (d : pydict) :
  dict_get k (foldl put d fs)
  = match row_value k fs with Some v => Some v | None => dict_get k d end.
Proof.
  revert d. induction fs as [|f fs IH]; intros d; cbn [foldl row_value]; [done|].
  rewrite IH. destruct (row_value k fs); [done|].
  unfold put. rewrite dict_get_dict_set. by destruct (String.eqb k (field f)).
Qed.

(** The value under a key: the one of the last field of that name. *)
Lemma dict_get_row_of_result (k : string) (row : list result_field) :
  dict_get k (row_of_result row) = row_value k row.
Proof.
  unfold row_of_result. rewrite dict_get_foldl_put. by destruct (row_value k row).
Qed.

Lemma format_results_dispatch (res : list (list result_field))
    (format : string) (output_file : option string) (exclude_metadata : bool) :
  res <> [] -> head res <> Some [] ->
  format_results res format output_file exclude_metadata
  = let sorted_fields := schema res exclude_metadata in
    let rows := map row_of_result res in
    if String.eqb format "json" then _format_json rows output_file
    else if String.eqb format "csv" then _format_csv rows sorted_fields output_file
    else if String.eqb format "table" then _format_table rows sorted_fields output_file
    else raise (ValueError ("Unsupported format: " +:+ format)).
Proof. intros H1 H2. by destruct res as [|[|f row] res]. Qed.

(** A row that carries [b] before [a]: the JSON object keeps that order,
    which is not the one of the schema. *)
Lemma json_order_counterexample :
  format_results unordered_rows "json" None false
  = Run [Stdout (json_dumps [[("b", "1"); ("a", "2")]])] (Return None)
  /\ schema unordered_rows false = ["a"; "b"]
  /\ ~ json_in_schema_order unordered_rows false.
Proof.
  assert (Hs : schema unordered_rows false = ["a"; "b"]) by by vm_compute.
  split; [by vm_compute|]. split; [exact Hs|].
  unfold json_in_schema_order. rewrite Hs.
  intros H. apply Forall_cons in H as [H _].
  change (["b"; "a"] `sublist_of` ["a"; "b"]) in H.
  apply sublist_cons_l in H as (k1 & k2 & Hk & Hsub).
  destruct k1 as [|x [|y [|z k1]]]; cbn in Hk; simplify_eq.
  by apply sublist_nil_r in Hsub.
Qed.

(** C5, as the script has it.  When the first row is not empty and
    [exclude_metadata] has nothing to exclude (it is not set, or no field
    is marked), the JSON output is the array of one object per row, in
    the order of the rows; the keys of an object are the field names of
    its row in the order the row first carries them, not in the order of
    the schema, each with the value of its last field of that name. *)
Theorem format_results_json_follows_rows (res : list (list result_field))
    (output_file : option string) (exclude_metadata : bool) :
  res <> [] -> head res <> Some [] ->
  (exclude_metadata = true -> unprivileged res) ->
  exists objs,
    format_results res "json" output_file exclude_metadata
    = _format_json objs output_file
    /\ _format_json objs None = Run [Stdout (json_dumps objs)] (Return None)
    /\ Forall2 (fun row obj =>
                  keys obj = first_occurrences (map field row)
                  /\ forall k, dict_get k obj = row_value k row)
               res objs.
Proof.
  intros H1 H2 _. exists (map row_of_result res).
  split; [by rewrite format_results_dispatch|]. split; [done|].
  change (map row_of_result res) with (row_of_result <$> res).
  apply Forall2_fmap_r, Forall_Forall2_diag, Forall_forall.
  intros row _. split; [apply keys_row_of_result|].
  intros k. apply dict_get_row_of_result.
Qed.

Lemma format_results_json_follows_rows_witness :
  exists objs,
    format_results unordered_rows "json" None true = _format_json objs None
    /\ _format_json objs None = Run [Stdout (json_dumps objs)] (Return None)
    /\ Forall2 (fun row obj =>
                  keys obj = first_occurrences (map field row)
                  /\ forall k, dict_get k obj = row_value k row)
               unordered_rows objs.
Proof.
  apply format_results_json_follows_rows; [discriminate | discriminate |].
  intros _. by repeat constructor.
Defined.

(** *** The schema of rows without marked fields *)

Lemma filter_all {A} (P : A -> Prop) `{!forall x, Decision (P x)} (l : list A) :
  Forall P l -> filter P l = l.
Proof.
  induction 1 as [|x l Hx _ IH]; [done|].
  by rewrite filter_cons_True, IH.
Qed.

Lemma filter_none {A} (P : A -> Prop) `{!forall x, Decision (P x)} (l : list A) :
  Forall (fun x => ~ P x) l -> filter P l = [].
Proof.
  induction 1 as [|x l Hx _ IH]; [done|].
  by rewrite filter_cons_False.
Qed.

Lemma elem_of_all_fields (res : list (list result_field)) (k : string) :
  k ∈ all_fields res <-> exists row, row ∈ res /\ k ∈ map field row.
Proof.
  unfold all_fields. rewrite elem_of_list_to_set, list_elem_of_In, in_map_iff.
  split.
  - intros (f & <- & (row & Hrow & Hf)%in_concat). exists row.
    split; [by apply list_elem_of_In|].
    apply list_elem_of_In, in_map_iff. eauto.
  - intros (row & Hrow%list_elem_of_In & (f & <- & Hf)%list_elem_of_In%in_map_iff).
    exists f. split; [done|]. apply in_concat. eauto.
Qed.

Lemma unprivileged_all_fields (res : list (list result_field)) (k : string) :
  unprivileged res -> k ∈ all_fields res -> Py.startswith k "@" = false.
Proof.
  intros Hres (row & Hrow & (f & <- & Hf)%list_elem_of_In%in_map_iff)%elem_of_all_fields.
  unfold unprivileged in Hres. rewrite Forall_forall in Hres.
  specialize (Hres row Hrow). rewrite Forall_forall in Hres.
  by apply Hres, list_elem_of_In.
Qed.

Lemma metadata_fields_marked (k : string) :
  k ∈ metadata_fields -> Py.startswith k "@" = true.
Proof.
  unfold metadata_fields. intros H.
  repeat (apply elem_of_cons in H as [->|H]; [done|]).
  by apply elem_of_nil in H.
Qed.

Lemma schema_unprivileged (res : list (list result_field)) (exclude_metadata : bool) :
  unprivileged res ->
  schema res exclude_metadata = sorted (elements (all_fields res)).
Proof.
  intros Hres. unfold schema.
  rewrite (filter_none (fun f => f ∈ all_fields res)); cycle 1.
  { apply Forall_forall. intros k Hk Hin.
    apply metadata_fields_marked in Hk.
    apply (unprivileged_all_fields res k Hres) in Hin. congruence. }
  rewrite (filter_all (fun f => f ∉ metadata_fields)); cycle 1.
  { apply Forall_forall. intros k Hk%elem_of_elements Hin.
    apply metadata_fields_marked in Hin.
    apply (unprivileged_all_fields res k Hres) in Hk. congruence. }
  cbn [app]. destruct exclude_metadata; [|done].
  apply filter_all, Forall_forall. intros k Hk.
  unfold sorted in Hk. rewrite merge_sort_Permutation, elem_of_elements in Hk.
  by apply unprivileged_all_fields with res.
Qed.

(** *** The CSV writer on rows inside the field names *)

Lemma _dict_to_list_inside (fieldnames : list string) (row : list result_field) :
  (forall k, k ∈ map field row -> k ∈ fieldnames) ->
  _dict_to_list fieldnames (row_of_result row) = inr (csv_cells fieldnames row).
Proof.
  intros Hin. unfold _dict_to_list.
  rewrite (filter_none (fun k => k ∉ fieldnames)); cycle 1.
  { apply Forall_forall. intros k Hk Hout. apply Hout, Hin.
    rewrite keys_row_of_result in Hk. clear -Hk.
    induction (map field row) as [|x l IH]; [done|].
    cbn in Hk. apply elem_of_cons in Hk as [->|Hk]; [by left|].
    apply list_elem_of_filter in Hk as [_ Hk]. right. by apply IH. }
  f_equal. unfold csv_cells. apply map_ext. intros k.
  by rewrite dict_get_row_of_result.
Qed.

Lemma writerows_inside (fieldnames : list string) (res : list (list result_field)) :
  (forall row k, row ∈ res -> k ∈ map field row -> k ∈ fieldnames) ->
  writerows fieldnames (map row_of_result res) = (csv_body fieldnames res, None).
Proof.
  induction res as [|row res IH]; intros Hin; [done|].
  cbn [map writerows csv_body].
  rewrite _dict_to_list_inside by (intros k; apply Hin; left).
  rewrite IH; [done|]. intros row' k Hrow. apply Hin. by right.
Qed.

(** An empty first row: the schema holds the field of the second row,
    yet nothing is written but the notice that there are no results. *)
Lemma csv_empty_first_row_counterexample :
  unprivileged [[]; [fv "A" "1"]]
  /\ schema [[]; [fv "A" "1"]] false = ["A"]
  /\ format_results [[]; [fv "A" "1"]] "csv" None false
     = Run [Stdout "No results returned from query"] (Return None)
  /\ ~ csv_header_is_schema [[]; [fv "A" "1"]].
Proof.
  split; [by repeat constructor|]. split; [by vm_compute|].
  split; [done|]. intros [body Hbody]. discriminate Hbody.
Qed.

(** C8, as the script has it.  For rows without marked fields, the first
    of them not empty, the CSV output is the header line, which lists in
    ascending order and once each the field names that occur in some
    row, followed by one record per row in the order of the rows, with an
    empty cell where the row lacks the field. *)
Theorem format_results_csv_sparse (res : list (list result_field))
    (exclude_metadata : bool) :
  unprivileged res -> res <> [] -> head res <> Some [] ->
  format_results res "csv" None exclude_metadata
  = Run [Stdout (csv_record (schema res exclude_metadata)
                 +:+ csv_body (schema res exclude_metadata) res)]
        (Return None)
  /\ Sorted String.le (schema res exclude_metadata)
  /\ NoDup (schema res exclude_metadata)
  /\ (forall k, k ∈ schema res exclude_metadata
                <-> exists row, row ∈ res /\ k ∈ map field row).
Proof.
  intros Hres H1 H2.
  assert (Hin : forall k, k ∈ schema res exclude_metadata
                          <-> exists row, row ∈ res /\ k ∈ map field row).
  { intros k. rewrite schema_unprivileged by done. unfold sorted.
    by rewrite merge_sort_Permutation, elem_of_elements, elem_of_all_fields. }
  repeat split; try apply Hin.
  - rewrite format_results_dispatch by done. cbn zeta.
    change (String.eqb "csv" "json") with false.
    change (String.eqb "csv" "csv") with true. cbn match.
    unfold _format_csv. rewrite writerows_inside; [done|].
    intros row k Hrow Hk. apply Hin. eauto.
  - rewrite schema_unprivileged by done. apply Sorted_merge_sort, _.
  - rewrite schema_unprivileged by done. unfold sorted.
    rewrite merge_sort_Permutation. apply NoDup_elements.
Qed.

Lemma format_results_csv_sparse_witness :
  (format_results sparse_rows "csv" None false
   = Run [Stdout (csv_record (schema sparse_rows false)
                  +:+ csv_body (schema sparse_rows false) sparse_rows)]
         (Return None)
   /\ Sorted String.le (schema sparse_rows false)
   /\ NoDup (schema sparse_rows false)
   /\ (forall k, k ∈ schema sparse_rows false
                 <-> exists row, row ∈ sparse_rows /\ k ∈ map field row))
  /\ schema sparse_rows false = ["A"; "B"; "C"]
  /\ csv_record (schema sparse_rows false)
     +:+ csv_body (schema sparse_rows false) sparse_rows
     = "A,B,C" +:+ cr +:+ nl +:+ "1,2," +:+ cr +:+ nl
       +:+ ",3,4" +:+ cr +:+ nl +:+ "5,," +:+ cr +:+ nl.
Proof.
  split; [|split; by vm_compute].
  apply format_results_csv_sparse; [|discriminate|discriminate].
  unfold sparse_rows. by repeat constructor.
Defined.

(** * Further properties *)

(** ** Strings *)

Section Strings.

Implicit Types (s t : string) (c : ascii) (p : ascii -> bool).

Lemma app_cons c s t : String c s +:+ t = String c (s +:+ t).
Proof. reflexivity. Qed.

Lemma app_nil_right s : s +:+ EmptyString = s.
Proof. induction s as [|c s IH]; [done|]. by rewrite app_cons, IH. Qed.

Lemma app_assoc_string s t u : (s +:+ t) +:+ u = s +:+ (t +:+ u).
Proof. induction s as [|c s IH]; [done|]. by rewrite !app_cons, IH. Qed.

Lemma length_app_string s t :
  String.length (s +:+ t) = (String.length s + String.length t)%nat.
Proof. induction s as [|c s IH]; [done|]. rewrite app_cons. cbn. by rewrite IH. Qed.

Lemma all_chars_app p s t :
  Py.all_chars p (s +:+ t) = Py.all_chars p s && Py.all_chars p t.
Proof.
  induction s as [|c s IH]; [done|]. rewrite app_cons. cbn.
  by rewrite IH, andb_assoc.
Qed.

Lemma all_chars_impl p q s :
  (forall c, p c = true -> q c = true) ->
  Py.all_chars p s = true -> Py.all_chars q s = true.
Proof.
  intros Hpq. induction s as [|c s IH]; [done|]. cbn.
  intros [Hc Hs]%andb_true_iff. by rewrite (Hpq c Hc), IH.
Qed.

Lemma rev_app_acc s t : String.rev_app s t = String.rev s +:+ t.
Proof.
  unfold String.rev. revert t. induction s as [|c s IH]; intros t; [done|].
  cbn. rewrite (IH (String c t)), (IH (String c EmptyString)).
  by rewrite app_assoc_string.
Qed.

Lemma rev_cons c s : String.rev (String c s) = String.rev s +:+ String c EmptyString.
Proof. unfold String.rev at 1. cbn. apply rev_app_acc. Qed.

Lemma rev_app_string s t : String.rev (s +:+ t) = String.rev t +:+ String.rev s.
Proof.
  induction s as [|c s IH]; [by rewrite app_nil_right|].
  by rewrite app_cons, !rev_cons, IH, app_assoc_string.
Qed.

Lemma rev_rev s : String.rev (String.rev s) = s.
Proof.
  induction s as [|c s IH]; [done|].
  by rewrite rev_cons, rev_app_string, IH.
Qed.

Lemma all_chars_rev p s : Py.all_chars p (String.rev s) = Py.all_chars p s.
Proof.
  induction s as [|c s IH]; [done|].
  rewrite rev_cons, all_chars_app, IH. cbn.
  by rewrite andb_true_r, andb_comm.
Qed.

(** *** Stripping *)

Lemma lstrip_by_head p s c t :
  Py.lstrip_by p s = String c t -> p c = false.
Proof.
  induction s as [|c' s IH]; [done|]. cbn.
  destruct (p c') eqn:Hc; [done|]. by intros [= <- _].
Qed.

Lemma lstrip_by_suffix p s : exists u, s = u +:+ Py.lstrip_by p s.
Proof.
  induction s as [|c s [u Hu]]; [by exists EmptyString|]. cbn.
  destruct (p c).
  - exists (String c u). by rewrite app_cons, <- Hu.
  - by exists EmptyString.
Qed.

Lemma lstrip_by_fixed p s :
  (forall c t, s = String c t -> p c = false) -> Py.lstrip_by p s = s.
Proof. destruct s as [|c t]; [done|]. intros H. cbn. by rewrite (H c t). Qed.

(** What [strip] returns is stripped already. *)
Lemma strip_by_idempotent p s : Py.strip_by p (Py.strip_by p s) = Py.strip_by p s.
Proof.
  unfold Py.strip_by at 2.
  set (a := Py.lstrip_by p s). set (b := Py.lstrip_by p (String.rev a)).
  destruct (lstrip_by_suffix p (String.rev a)) as [u Hu]. fold b in Hu.
  assert (Ha : a = String.rev b +:+ String.rev u).
  { by rewrite <- rev_app_string, <- Hu, rev_rev. }
  unfold Py.strip_by.
  rewrite (lstrip_by_fixed p (String.rev b)); cycle 1.
  { intros c t Hb. rewrite Hb, app_cons in Ha.
    by apply (lstrip_by_head p s c (t +:+ String.rev u)). }
  rewrite rev_rev. rewrite (lstrip_by_fixed p b); [done|].
  intros c t Hb. by apply (lstrip_by_head p (String.rev a) c t).
Qed.

(** A string without blanks is left as it is. *)
Lemma strip_by_clean p s :
  Py.all_chars (fun c => negb (p c)) s = true -> Py.strip_by p s = s.
Proof.
  intros Hs. unfold Py.strip_by.
  assert (Hfix : forall t, Py.all_chars (fun c => negb (p c)) t = true ->
                           Py.lstrip_by p t = t).
  { intros t Ht. apply lstrip_by_fixed. intros c t' ->. cbn in Ht.
    apply andb_true_iff in Ht as [Hc _]. by apply negb_true_iff. }
  rewrite (Hfix s Hs), Hfix, rev_rev; [done|]. by rewrite all_chars_rev.
Qed.

Lemma last_char_app s c : Py.last_char (s +:+ String c EmptyString) = Some c.
Proof.
  induction s as [|c' s IH]; [done|]. rewrite app_cons.
  cbn [Py.last_char]. rewrite IH. by destruct s.
Qed.

Lemma substring_prefix s t : String.substring 0 (String.length s) (s +:+ t) = s.
Proof. induction s as [|c s IH]; [by destruct t|]. rewrite app_cons. cbn. by rewrite IH. Qed.

Lemma but_last_app s c : Py.but_last (s +:+ String c EmptyString) = s.
Proof.
  unfold Py.but_last. rewrite length_app_string. cbn [String.length].
  replace (String.length s + 1 - 1)%nat with (String.length s) by lia.
  apply substring_prefix.
Qed.

End Strings.

(** ** TimeResolver, continued *)

(** X1.  Blanks around a time expression do not matter: [parse_time]
    gives the stripped text the same answer, message included. *)
Theorem parse_time_ignores_outer_blanks (clk : clock) (s : string) :
  parse_time clk s = parse_time clk (Py.strip s).
Proof.
  unfold parse_time. cbn zeta. unfold Py.strip.
  by rewrite strip_by_idempotent.
Qed.

(** What a decimal digit is not. *)
Lemma decimal_char (c : ascii) :
  Py.isdecimal c = true ->
  Py.isspace c = false /\ Py.int_space c = false
  /\ Py.lower_char c = c /\ Py.isdigit_char c = true
  /\ Forall (fun x => Ascii.eqb c x = false) ["n"; "l"; "y"; "t"]%char
  /\ bool_decide (c ∈ ["h"; "d"; "m"; "s"]%char) = false.
Proof.
  destruct c as [[] [] [] [] [] [] [] []]; vm_compute; intros H;
    try discriminate H; by repeat constructor.
Qed.

(** What the letter of a unit is. *)
Lemma unit_char (u : ascii) :
  u ∈ ["s"; "m"; "h"; "d"]%char ->
  Py.isspace u = false /\ Py.lower_char u = u
  /\ bool_decide (u ∈ ["h"; "d"; "m"; "s"]%char) = true.
Proof.
  intros H. repeat (apply elem_of_cons in H as [->|H]; [by vm_compute|]).
  by apply elem_of_nil in H.
Qed.

Lemma lower_fixed (s : string) :
  Py.all_chars (fun c => bool_decide (Py.lower_char c = c)) s = true ->
  Py.lower s = s.
Proof.
  induction s as [|c s IH]; [done|]. cbn.
  intros [Hc%bool_decide_eq_true Hs]%andb_true_iff. by rewrite Hc, IH.
Qed.

(** A text that starts with a digit is no keyword. *)
Lemma digit_first_no_keyword (c : ascii) (s : string) :
  Py.isdecimal c = true ->
  String.eqb (String c s) "now" = false
  /\ assoc (String c s) named_ranges = None.
Proof.
  intros (_ & _ & _ & _ & Hne & _)%decimal_char.
  rewrite !Forall_cons in Hne. destruct Hne as (Hn & Hl & Hy & Ht & _).
  cbn. by rewrite Hn, Hl, Hy, Ht.
Qed.

Lemma int_digits_decimal (s : string) (acc : Z) :
  Py.all_chars Py.isdecimal s = true ->
  Py.int_digits acc true s = Some (digits_value acc s).
Proof.
  revert acc. induction s as [|c s IH]; intros acc; [done|]. cbn.
  intros [Hc Hs]%andb_true_iff. rewrite Hc. by apply IH.
Qed.

Lemma count_digits_length (s : string) :
  0 <= Py.count_digits s <= Z.of_nat (String.length s).
Proof.
  induction s as [|c s IH]; [done|]. cbn [Py.count_digits String.length].
  destruct (Py.isdecimal c); lia.
Qed.

(** [int] on a non-empty string of digits, 4300 at most. *)
Lemma int_decimal (s : string) :
  s <> EmptyString -> Py.all_chars Py.isdecimal s = true ->
  (String.length s <= 4300)%nat ->
  Py.int s = Some (digits_value 0 s).
Proof.
  intros Hne Hs Hlen. unfold Py.int, Py.max_str_digits.
  pose proof (count_digits_length s) as Hcount.
  destruct (Z.ltb_spec 4300 (Py.count_digits s)); [lia|].
  rewrite strip_by_clean; cycle 1.
  { revert Hs. apply all_chars_impl. intros c Hc.
    apply decimal_char in Hc as (_ & -> & _). done. }
  destruct s as [|c s]; [done|]. cbn in Hs.
  apply andb_true_iff in Hs as [Hc Hs].
  transitivity (Py.int_digits 0 false (String c s)).
  - destruct c as [[] [] [] [] [] [] [] []]; try discriminate Hc; reflexivity.
  - cbn. rewrite Hc. by apply int_digits_decimal.
Qed.

Lemma last_char_all (p : ascii -> bool) (s : string) :
  s <> EmptyString -> Py.all_chars p s = true ->
  exists c, Py.last_char s = Some c /\ p c = true.
Proof.
  induction s as [|c s IH]; [done|]. intros _. cbn [Py.all_chars].
  intros [Hc Hs]%andb_true_iff. destruct s as [|c' s]; [by exists c|].
  destruct IH as (d & Hd & Hpd); [done|done|]. exists d. split; [|done].
  cbn [Py.last_char] in *. by rewrite Hd.
Qed.

(** X2.  Thirteen decimal digits are an epoch in milliseconds: the
    answer is the number they spell, whatever the clock. *)
Theorem parse_time_epoch_digits (clk : clock) (s : string) :
  String.length s = 13%nat ->
  Py.all_chars Py.isdecimal s = true ->
  parse_time clk s = Return (digits_value 0 s).
Proof.
  intros Hlen Hs.
  assert (Hne : s <> EmptyString) by by intros ->.
  assert (Hstrip : Py.strip s = s).
  { apply strip_by_clean. revert Hs. apply all_chars_impl. intros c Hc.
    apply decimal_char in Hc as (-> & _). done. }
  assert (Hlower : Py.lower s = s).
  { apply lower_fixed. revert Hs. apply all_chars_impl. intros c Hc.
    apply decimal_char in Hc as (_ & _ & -> & _). by apply bool_decide_eq_true. }
  destruct (last_char_all _ s Hne Hs) as (d & Hlast & Hd).
  apply decimal_char in Hd as (_ & _ & _ & _ & _ & Hunit).
  assert (Hdigit : Py.isdigit s = true).
  { unfold Py.isdigit. apply andb_true_iff. split.
    - apply negb_true_iff. by apply String.eqb_neq.
    - revert Hs. apply all_chars_impl. intros c Hc.
      by apply decimal_char in Hc as (_ & _ & _ & -> & _). }
  unfold parse_time. cbn zeta. rewrite Hstrip, Hlower, Hlast, Hunit.
  destruct s as [|c s']; [done|].
  pose proof Hs as Hs'. cbn in Hs'. apply andb_true_iff in Hs' as [Hc _].
  destruct (digit_first_no_keyword c s' Hc) as [-> ->].
  unfold parse_absolute. rewrite Hdigit, Hlen.
  rewrite int_decimal by (done || (rewrite Hlen; lia)). done.
Qed.

Lemma parse_time_epoch_digits_witness :
  parse_time (zone 3600) "1733395200000" = Return (digits_value 0 "1733395200000")
  /\ digits_value 0 "1733395200000" = 1733395200000.
Proof.
  split; [|reflexivity].
  apply parse_time_epoch_digits; reflexivity.
Defined.

Lemma wall_range :
  min_wall = -62135596800000000 /\ max_wall = 253402300799999999
  /\ us_per_day = 86400000000.
Proof. by vm_compute. Qed.

(** The timestamp of a naive value on a whole second in a zone of fixed
    offset. *)
Lemma epoch_ms_fixed (clk : clock) (off w : Z) :
  (forall u, utcoffset clk u = off) ->
  -86400 <= off <= 86400 ->
  w mod 1000000 = 0 ->
  min_wall + 2 * us_per_day <= w <= max_wall - 2 * us_per_day ->
  epoch_ms clk {| wall := w; tzinfo := None; fold := false |}
  = Return (Z.quot (w - off * 1000000) 1000).
Proof.
  intros Hoff Hrange Hwhole Hw.
  destruct wall_range as (Hmin & Hmax & Hday). rewrite Hmin, Hmax, Hday in Hw.
  destruct second_range as [Hmins Hmaxs].
  assert (Hlo : -62135424000 <= w / 1000000) by (apply Z.div_le_lower_bound; lia).
  assert (Hhi : w / 1000000 <= 253402128000) by (apply Z.div_le_upper_bound; lia).
  unfold epoch_ms, timestamp, us_per_second; cbn [tzinfo wall fold].
  rewrite (local_to_seconds_fixed clk off) by (done || (rewrite Hmins, Hmaxs; lia)).
  cbn [mbind outcome_bind]. rewrite Hwhole, whole_seconds_ms by lia. f_equal.
  replace w with (w / 1000000 * 1000000) at 2
    by (pose proof (Z.div_mod w 1000000); lia).
  rewrite quot_ms. lia.
Qed.

Lemma relative_delta_unit (u : ascii) (v : Z) :
  u ∈ ["s"; "m"; "h"; "d"]%char ->
  relative_delta u v = timedelta (v * unit_us u).
Proof.
  intros H.
  repeat (apply elem_of_cons in H as [->|H];
          [unfold relative_delta, unit_us, seconds, minutes, hours, days,
             us_per_day, us_per_second;
           cbn [Ascii.eqb Bool.eqb]; f_equal; lia|]).
  by apply elem_of_nil in H.
Qed.

Lemma digits_value_nonneg (s : string) (acc : Z) :
  Py.all_chars Py.isdecimal s = true -> 0 <= acc -> 0 <= digits_value acc s.
Proof.
  revert acc. induction s as [|c s IH]; intros acc; [done|]. cbn.
  intros [Hc Hs]%andb_true_iff Hacc. apply IH; [done|].
  unfold Py.isdecimal, Py.between in Hc.
  apply andb_true_iff in Hc as [Hc%Z.leb_le _]. lia.
Qed.

(** X3.  A relative duration: at most 4300 digits and one of the
    letters s, m, h, d.
    On a machine in a zone of fixed offset whose clock reads a whole
    second and, with the instant asked for, lies well inside the
    calendar, the answer is the present instant less the duration, in
    milliseconds. *)
Theorem parse_time_relative (clk : clock) (off : Z) (ds : string) (u : ascii) :
  (forall x, utcoffset clk x = off) ->
  -86400 <= off <= 86400 ->
  now_wall clk mod 1000000 = 0 ->
  ds <> EmptyString -> Py.all_chars Py.isdecimal ds = true ->
  (String.length ds <= 4300)%nat ->
  u ∈ ["s"; "m"; "h"; "d"]%char ->
  now_wall clk <= max_wall - 2 * us_per_day ->
  min_wall + 2 * us_per_day <= now_wall clk - digits_value 0 ds * unit_us u ->
  parse_time clk (ds +:+ String u EmptyString)
  = Return (Z.quot (now_wall clk - digits_value 0 ds * unit_us u - off * 1000000)
                   1000).
Proof.
  intros Hoff Hrange Hsecond Hne Hds Hlen Hu Hnow Hthen.
  pose proof (digits_value_nonneg ds 0 Hds ltac:(done)) as Hpos.
  destruct (unit_char u Hu) as (Husp & Hulow & Hunit).
  set (s := ds +:+ String u EmptyString).
  assert (Hstrip : Py.strip s = s).
  { apply strip_by_clean. unfold s. rewrite all_chars_app. cbn.
    rewrite Husp, andb_true_r. cbn. revert Hds. apply all_chars_impl.
    intros c Hc. apply decimal_char in Hc as (-> & _). done. }
  assert (Hlower : Py.lower s = s).
  { apply lower_fixed. unfold s. rewrite all_chars_app. cbn.
    rewrite Hulow, bool_decide_true, andb_true_r by done. cbn.
    revert Hds. apply all_chars_impl. intros c Hc.
    apply decimal_char in Hc as (_ & _ & -> & _). by apply bool_decide_eq_true. }
  assert (Hkey : String.eqb s "now" = false /\ assoc s named_ranges = None).
  { unfold s. destruct ds as [|c ds']; [done|]. rewrite app_cons.
    apply digit_first_no_keyword. cbn in Hds.
    by apply andb_true_iff in Hds as [-> _]. }
  destruct Hkey as [Hnow' Hnamed].
  assert (Hunit_pos : 0 < unit_us u).
  { repeat (apply elem_of_cons in Hu as [->|Hu]; [by vm_compute|]).
    by apply elem_of_nil in Hu. }
  assert (Hwhole : (now_wall clk - digits_value 0 ds * unit_us u) mod 1000000 = 0).
  { assert (Hunit_whole : unit_us u mod 1000000 = 0).
    { repeat (apply elem_of_cons in Hu as [->|Hu]; [by vm_compute|]).
      by apply elem_of_nil in Hu. }
    apply Z.mod_divide in Hunit_whole as [k ->]; [|lia].
    apply Z.mod_divide in Hsecond as [j ->]; [|lia].
    apply Z.mod_divide; [lia|].
    exists (j - digits_value 0 ds * k). lia. }
  set (delta := digits_value 0 ds * unit_us u) in *.
  assert (Hdelta : 0 <= delta) by (unfold delta; lia).
  destruct wall_range as (Hmin & Hmax & Hday).
  assert (Htd : timedelta delta = Return delta).
  { unfold timedelta. rewrite Hday.
    assert (0 <= delta / 86400000000) by (apply Z.div_pos; lia).
    assert (delta / 86400000000 <= 999999999)
      by (apply Z.div_le_upper_bound; lia).
    unfold Py.between.
    destruct (Z.leb_spec (-999999999) (delta / 86400000000)); [|lia].
    destruct (Z.leb_spec (delta / 86400000000) 999999999); [done|lia]. }
  assert (Hsub : sub (now clk) delta
                 = Return {| wall := now_wall clk - delta; tzinfo := None;
                             fold := false |}).
  { unfold sub, now; cbn [wall tzinfo]. unfold Py.between.
    destruct (Z.leb_spec min_wall (now_wall clk - delta)); [|lia].
    destruct (Z.leb_spec (now_wall clk - delta) max_wall); [done|lia]. }
  unfold parse_time. cbn zeta. rewrite Hstrip, Hlower, Hnow', Hnamed.
  unfold s at 1 2 3. rewrite last_char_app, Hunit, but_last_app.
  rewrite int_decimal by done. cbn [parsed mbind outcome_bind].
  rewrite relative_delta_unit by done. fold delta. rewrite Htd.
  cbn [mbind outcome_bind]. rewrite Hsub. cbn [mbind outcome_bind].
  rewrite (epoch_ms_fixed clk off) by (done || lia || apply Hwhole). reflexivity.
Qed.

Lemma parse_time_relative_witness :
  parse_time (zone 3600) ("2" +:+ String "h" EmptyString)
  = Return (Z.quot (now_wall (zone 3600) - digits_value 0 "2" * unit_us "h"
                    - 3600 * 1000000) 1000)
  /\ Z.quot (now_wall (zone 3600) - digits_value 0 "2" * unit_us "h"
             - 3600 * 1000000) 1000 = 1764928800000 - 2 * 3600 * 1000.
Proof.
  split; [|reflexivity].
  apply parse_time_relative;
    [reflexivity | lia | reflexivity | discriminate | reflexivity
    | cbn; lia
    | by repeat constructor | vm_compute; discriminate
    | vm_compute; discriminate].
Defined.

(** ** ResourceValidator, continued *)

Lemma expand_log_groups_resolved (client : logs_client)
    (patterns : list string) (contributions : list (list string)) :
  Forall2 (resolves client) patterns contributions ->
  forall acc,
    expand_log_groups client patterns acc = Return (acc ++ concat contributions).
Proof.
  induction 1 as [|p names patterns contributions Hp _ IH]; intros acc.
  - cbn. by rewrite app_nil_r.
  - cbn [expand_log_groups concat]. unfold resolves in Hp.
    destruct (Py.contains "*" p).
    + destruct Hp as (pages & -> & -> & Hne).
      rewrite bool_decide_false; cycle 1.
      { intros [_ Hnil]%app_eq_nil. done. }
      by rewrite IH, app_assoc.
    + destruct Hp as [[found ->] ->]. by rewrite IH, <- app_assoc.
Qed.

(** X4.  Patterns add their names in the order they are given, and
    nothing is merged: when every literal is answered and every wildcard
    lists something, the result is the concatenation of what each pattern
    stands for (repeats included), cut after 20 names. *)
Theorem validate_log_groups_in_order (client : logs_client)
    (patterns : list string) (contributions : list (list string)) :
  Forall2 (resolves client) patterns contributions ->
  result (validate_log_groups client patterns)
  = Return (take 20 (concat contributions)).
Proof.
  intros H. unfold validate_log_groups.
  pose proof (expand_log_groups_resolved client patterns contributions H [])
    as E. cbn [app] in E. rewrite E.
  unfold mbind, run_bind, lift; cbn [result log].
  destruct (Nat.ltb_spec 20 (length (concat contributions))); cbn; [done|].
  by rewrite take_ge.
Qed.

Lemma validate_log_groups_in_order_witness :
  result (validate_log_groups (catalog_client ["/aws/lambda/a"; "/aws/lambda/b"])
            ["/aws/lambda/a"; "/aws/lambda/*"; "/aws/lambda/a"])
  = Return (take 20 (concat [["/aws/lambda/a"];
                             ["/aws/lambda/a"; "/aws/lambda/b"];
                             ["/aws/lambda/a"]])).
Proof.
  apply validate_log_groups_in_order.
  repeat constructor; cbv [resolves]; cbn.
  - eauto.
  - eexists. repeat split. done.
  - eauto.
Defined.

Lemma validate_log_groups_bound (client : logs_client)
    (patterns names : list string) :
  result (validate_log_groups client patterns) = Return names ->
  (length names <= 20)%nat.
Proof.
  unfold validate_log_groups.
  destruct (expand_log_groups client patterns []) as [all| | |];
    unfold mbind, run_bind, lift; cbn [result log]; try done.
  destruct (Nat.ltb_spec 20 (length all)); cbn [result]; intros [= <-]; [|done].
  rewrite length_take. lia.
Qed.

(** X5.  Whatever the service answers, a list that
    [validate_log_groups] returns has at most 20 names. *)
Theorem validate_log_groups_at_most_20 (client : logs_client)
    (patterns names : list string) :
  result (validate_log_groups client patterns) = Return names ->
  (length names <= 20)%nat.
Proof. apply validate_log_groups_bound. Qed.

Lemma validate_log_groups_at_most_20_witness :
  result (validate_log_groups (catalog_client lambda_groups) ["/aws/lambda/*"])
  = Return (take 20 lambda_groups)
  /\ (length (take 20 lambda_groups) <= 20)%nat.
Proof.
  assert (H : result (validate_log_groups (catalog_client lambda_groups)
                        ["/aws/lambda/*"])
              = Return (take 20 lambda_groups)) by by vm_compute.
  split; [exact H|]. exact (validate_log_groups_at_most_20 _ _ _ H).
Defined.

(** X6.  When the lookup of the first pattern raises, nothing is
    validated: the exception goes through unchanged, unless its text
    holds ResourceNotFoundException, in which case it becomes
    LogGroupNotFoundError naming the pattern. *)
Theorem validate_log_groups_lookup_raises (client : logs_client)
    (pattern : string) (rest : list string) (e : exception) :
  (if Py.contains "*" pattern
   then paginate client (Py.replace "*" EmptyString pattern) = inl e
   else describe_log_groups client pattern 1 = inl e) ->
  validate_log_groups client (pattern :: rest)
  = Run [] (Raise
              (if not_found e then
                 LogGroupNotFoundError
                   ("Log group not found: " +:+ pattern +:+
                    (if Py.contains "*" pattern then EmptyString
                     else nl +:+ "Please verify the log group exists and you have permissions to access it."))
               else e)).
Proof.
  intros H. unfold validate_log_groups. cbn [expand_log_groups].
  destruct (Py.contains "*" pattern); rewrite H; destruct (not_found e); cbn;
    by rewrite ?app_nil_right.
Qed.

Lemma validate_log_groups_lookup_raises_witness :
  validate_log_groups
    {| paginate := fun _ => inl (ClientError "AccessDeniedException" "denied");
       describe_log_groups := fun _ _ =>
         inl (ClientError "ResourceNotFoundException"
                "An error occurred (ResourceNotFoundException)");
       start_query := fun _ _ _ _ _ => inr "q" |}
    ["/aws/lambda/a"; "/aws/*"]
  = Run [] (Raise
              (if not_found (ClientError "ResourceNotFoundException"
                               "An error occurred (ResourceNotFoundException)")
               then
                 LogGroupNotFoundError
                   ("Log group not found: " +:+ "/aws/lambda/a" +:+
                    (if Py.contains "*" "/aws/lambda/a" then EmptyString
                     else nl +:+ "Please verify the log group exists and you have permissions to access it."))
               else ClientError "ResourceNotFoundException"
                      "An error occurred (ResourceNotFoundException)")).
Proof. apply validate_log_groups_lookup_raises. reflexivity. Defined.

(** ** Runs *)

Lemma log_bind {A B} (m : run A) (k : A -> run B) :
  log (m ≫= k)
  = log m ++ match result m with Return a => log (k a) | _ => [] end.
Proof.
  unfold mbind, run_bind. destruct (result m); cbn; by rewrite ?app_nil_r.
Qed.

Lemma result_bind {A B} (m : run A) (k : A -> run B) :
  result (m ≫= k)
  = match result m with
    | Return a => result (k a)
    | Raise e => Raise e
    | Exit c => Exit c
    | Polling => Polling
    end.
Proof. unfold mbind, run_bind. by destruct (result m). Qed.

Lemma validate_log_groups_log (client : logs_client) (patterns : list string) :
  Forall is_stderr (log (validate_log_groups client patterns)).
Proof.
  unfold validate_log_groups. rewrite log_bind. cbn [lift log result app].
  destruct (expand_log_groups client patterns []) as [all| | |]; try done.
  destruct (20 <? length all)%nat; by repeat constructor.
Qed.

Lemma last_app_end {A} (l1 l2 : list A) (y : A) :
  last l2 = Some y -> last (l1 ++ l2) = Some y.
Proof. intros H. by rewrite last_app, H. Qed.

(** ** QuerySubmitter, continued *)

Lemma execute_query_resolved (client : logs_client) (clk_start clk_end : clock)
    (query : string) (log_groups : list string) (start_time end_time : string)
    (limit start_epoch end_epoch : Z) :
  parse_time clk_start start_time = Return start_epoch ->
  parse_time clk_end end_time = Return end_epoch ->
  start_epoch < end_epoch ->
  execute_query client clk_start clk_end query log_groups start_time end_time limit
  = submit client query log_groups start_time end_time limit start_epoch end_epoch.
Proof.
  intros Hs He Hlt. unfold execute_query. rewrite Hs, He.
  assert (Hb : (end_epoch <=? start_epoch) = false) by (apply Z.leb_gt; lia).
  unfold mbind at 1, run_bind at 1, lift; cbn [result log outcome_bind mbind app].
  rewrite Hb. symmetry. apply run_eta.
Qed.

(** X7.  A time that [parse_time] rejects stops [execute_query] before
    anything is printed or asked: its ValueError comes back as
    QuerySyntaxError with the same text, any other exception as it is. *)
Theorem execute_query_time_error (client : logs_client)
    (clk_start clk_end : clock) (query : string) (log_groups : list string)
    (start_time end_time : string) (limit : Z) (e : exception) :
  parse_time clk_start start_time = Raise e
  \/ (exists start_epoch, parse_time clk_start start_time = Return start_epoch
                          /\ parse_time clk_end end_time = Raise e) ->
  execute_query client clk_start clk_end query log_groups start_time end_time limit
  = Run [] (Raise (match e with
                   | ValueError m => QuerySyntaxError m
                   | _ => e
                   end)).
Proof.
  intros [Hs|(start_epoch & Hs & He)]; unfold execute_query; rewrite Hs, ?He;
    by destruct e.
Qed.

Lemma execute_query_time_error_witness :
  execute_query (catalog_client ["/aws/lambda/a"]) (zone 0) (zone 0)
    "fields @message" ["/aws/lambda/a"] "soon" "now" 10000
  = Run [] (Raise (match ValueError (time_format_message "soon") with
                   | ValueError m => QuerySyntaxError m
                   | e => e
                   end)).
Proof.
  apply (execute_query_time_error _ _ _ _ _ _ _ _
           (ValueError (time_format_message "soon"))).
  left. reflexivity.
Defined.

Lemma submit_log (client : logs_client) (query : string)
    (log_groups : list string) (start_time end_time : string)
    (limit start_epoch end_epoch : Z) :
  let r := submit client query log_groups start_time end_time limit
             start_epoch end_epoch in
  match result (validate_log_groups client log_groups) with
  | Return names =>
      exists before after,
        log r = before
                ++ StartQuery names start_epoch end_epoch query limit :: after
        /\ Forall (fun ev => is_start_query ev = false) before
        /\ Forall (fun ev => is_start_query ev = false) after
  | _ => Forall (fun ev => is_start_query ev = false) (log r)
  end.
Proof.
  cbn zeta. unfold submit. rewrite log_bind.
  pose proof (validate_log_groups_log client log_groups) as Hv.
  assert (Hv' : Forall (fun ev => is_start_query ev = false)
                  (log (validate_log_groups client log_groups))).
  { apply (Forall_impl _ _ _ Hv). by intros []. }
  destruct (result (validate_log_groups client log_groups)) as [names|e| |] eqn:Hr;
    cbn zeta.
  - rewrite Hr. cbn [result].
    rewrite !log_emit_then, log_bind.
    exists (log (validate_log_groups client log_groups)
            ++ Stdout ("Executing query across " +:+ pretty (length names)
                       +:+ " log group(s)...")
            :: Stdout ("Time range: " +:+ start_time +:+ " to " +:+ end_time)
            :: (if (length names <=? 5)%nat
                then map (fun group => Stdout ("  - " +:+ group)) names else [])).
    eexists. split.
    + rewrite <- app_assoc. cbn [app]. do 3 f_equal.
      destruct (length names <=? 5)%nat; cbn [log result app mret run_ret];
        by rewrite log_emit_then.
    + split.
      * apply Forall_app. split; [done|]. do 2 (constructor; [done|]).
        destruct (length names <=? 5)%nat; [|done].
        apply Forall_forall. intros ev (g & <- & _)%list_elem_of_In%in_map_iff. done.
      * destruct (start_query client names start_epoch end_epoch query limit)
          as [err|qid]; [|by repeat constructor].
        destruct (_ || _); [done|]. destruct (Py.contains _ _); by repeat constructor.
  - destruct e; cbn [log result]; rewrite ?Hr, ?app_nil_r; try done.
    apply Forall_app. split; by repeat constructor.
  - by rewrite Hr, app_nil_r.
  - by rewrite Hr, app_nil_r.
Qed.

(** X8.  The only request [execute_query] ever sends is sound: if its
    log holds a StartQuery, then both times were resolved, the start lies
    strictly before the end, the groups are the list the validator
    returned (so at most 20), and query and limit are the caller's.  And
    it sends at most one. *)
Theorem execute_query_request_sound (client : logs_client)
    (clk_start clk_end : clock) (query : string) (log_groups : list string)
    (start_time end_time : string) (limit : Z) :
  let r := execute_query client clk_start clk_end query log_groups
             start_time end_time limit in
  (forall g s e q l,
     StartQuery g s e q l ∈ log r ->
     parse_time clk_start start_time = Return s
     /\ parse_time clk_end end_time = Return e
     /\ s < e
     /\ result (validate_log_groups client log_groups) = Return g
     /\ (length g <= 20)%nat /\ q = query /\ l = limit)
  /\ (length (filter (fun ev => is_start_query ev = true) (log r)) <= 1)%nat.
Proof.
  cbn zeta.
  assert (Hquiet : forall l : list event,
            Forall (fun ev => is_start_query ev = false) l ->
            filter (fun ev => is_start_query ev = true) l = []
            /\ forall g s e q x, StartQuery g s e q x ∉ l).
  { intros l Hl. split.
    - apply filter_none. apply (Forall_impl _ _ _ Hl). intros ev ->. done.
    - intros g s e q x Hin. rewrite Forall_forall in Hl.
      by specialize (Hl _ Hin). }
  assert (Hnil : forall m : run string, log m = [] ->
            (forall g s e q l, StartQuery g s e q l ∈ log m -> False)
            /\ (length (filter (fun ev => is_start_query ev = true) (log m)) <= 1)%nat).
  { intros m ->. split; [|cbn; lia]. intros g s e q l H. by apply elem_of_nil in H. }
  destruct (parse_time clk_start start_time) as [s0|e0| |] eqn:Hs;
    [destruct (parse_time clk_end end_time) as [e1|e0| |] eqn:He|..].
  2-7: (edestruct Hnil as [H1 H2];
        [|split; [intros g s e q l Hin; destruct (H1 g s e q l Hin)|exact H2]];
        unfold execute_query; rewrite Hs, ?He; try destruct e0; reflexivity).
  destruct (Z.lt_ge_cases s0 e1) as [Hlt|Hge].
  - rewrite (execute_query_resolved _ _ _ _ _ _ _ _ s0 e1) by done.
    pose proof (submit_log client query log_groups start_time end_time limit
                  s0 e1) as Hlog. cbn zeta in Hlog.
    destruct (result (validate_log_groups client log_groups)) as [names|e0| |] eqn:Hv.
    + destruct Hlog as (before & after & -> & Hb & Ha).
      destruct (Hquiet _ Hb) as [Hfb Hnb]. destruct (Hquiet _ Ha) as [Hfa Hna].
      split.
      * intros g s e q l [Hin|Hin]%elem_of_app; [by apply Hnb in Hin|].
        apply elem_of_cons in Hin as [[= -> -> -> -> ->]|Hin]; [|by apply Hna in Hin].
        repeat split; try done. by apply (validate_log_groups_bound client log_groups).
      * rewrite filter_app, Hfb, filter_cons_True, Hfa by done. cbn. lia.
    + destruct (Hquiet _ Hlog) as [Hf Hn]. split; [|rewrite Hf; cbn; lia].
      intros g s e q l Hin. by apply Hn in Hin.
    + destruct (Hquiet _ Hlog) as [Hf Hn]. split; [|rewrite Hf; cbn; lia].
      intros g s e q l Hin. by apply Hn in Hin.
    + destruct (Hquiet _ Hlog) as [Hf Hn]. split; [|rewrite Hf; cbn; lia].
      intros g s e q l Hin. by apply Hn in Hin.
  - edestruct Hnil as [H1 H2];
      [|split; [intros g s e q l Hin; destruct (H1 g s e q l Hin)|exact H2]].
    unfold execute_query. rewrite Hs, He.
    assert (Hb : (e1 <=? s0) = true) by (apply Z.leb_le; lia).
    unfold mbind at 1, run_bind at 1, lift; cbn. by rewrite Hb.
Qed.

Lemma execute_query_request_sound_witness :
  StartQuery ["/aws/lambda/a"] 1733395200000 1733395300000 "fields @message" 50
  ∈ log (execute_query (catalog_client ["/aws/lambda/a"]) (zone 0) (zone 0)
           "fields @message" ["/aws/lambda/a"]
           "1733395200000" "1733395300000" 50)
  /\ 1733395200000 < 1733395300000
  /\ (length ["/aws/lambda/a"] <= 20)%nat.
Proof.
  assert (Hin : StartQuery ["/aws/lambda/a"] 1733395200000 1733395300000
                  "fields @message" 50
                ∈ log (execute_query (catalog_client ["/aws/lambda/a"])
                         (zone 0) (zone 0) "fields @message" ["/aws/lambda/a"]
                         "1733395200000" "1733395300000" 50)).
  { vm_compute. do 3 right. left. }
  split; [exact Hin|].
  destruct (proj1 (execute_query_request_sound _ _ _ _ _ _ _ _) _ _ _ _ _ Hin)
    as (_ & _ & Hlt & _ & Hlen & _).
  by split.
Defined.

(** X9.  A request the service refuses is not repeated and gives no
    query id.  The text or code of the refusal decides the end:
    QuerySyntaxError for a malformed query or an invalid parameter, exit
    status 1 after a line on stderr for a rate limit, CloudWatchQueryError
    with the text of the refusal otherwise. *)
Theorem execute_query_refused (client : logs_client)
    (clk_start clk_end : clock) (query : string) (log_groups : list string)
    (start_time end_time : string) (limit start_epoch end_epoch : Z)
    (names : list string) (e : exception) :
  parse_time clk_start start_time = Return start_epoch ->
  parse_time clk_end end_time = Return end_epoch ->
  start_epoch < end_epoch ->
  result (validate_log_groups client log_groups) = Return names ->
  start_query client names start_epoch end_epoch query limit = inl e ->
  let r := execute_query client clk_start clk_end query log_groups
             start_time end_time limit in
  result r
  = (if Py.contains "MalformedQueryException" (str_of_exception e)
        || Py.contains "InvalidParameterException" (error_code e)
     then Raise (QuerySyntaxError ("Invalid query syntax: " +:+ str_of_exception e))
     else if Py.contains "LimitExceededException" (error_code e) then Exit 1
     else Raise (CloudWatchQueryError
                   ("Query execution failed: " +:+ str_of_exception e)))
  /\ length (filter (fun ev => is_start_query ev = true) (log r)) = 1%nat
  /\ (Py.contains "LimitExceededException" (error_code e) = true ->
      Py.contains "MalformedQueryException" (str_of_exception e)
      || Py.contains "InvalidParameterException" (error_code e) = false ->
      last (log r)
      = Some (Stderr "✗ API rate limit exceeded. Please wait and try again.")).
Proof.
  intros Hs He Hlt Hv Hq. cbn zeta.
  rewrite (execute_query_resolved _ _ _ _ _ _ _ _ start_epoch end_epoch) by done.
  pose proof (submit_log client query log_groups start_time end_time limit
                start_epoch end_epoch) as Hlog.
  cbn zeta in Hlog. rewrite Hv in Hlog.
  destruct Hlog as (before & after & Hlog & Hb & Ha).
  split; [|split].
  - unfold submit. rewrite result_bind, Hv. cbn [result]. rewrite Hv.
    rewrite !result_emit_then, result_bind.
    destruct (length names <=? 5)%nat; cbn [result mret run_ret];
      rewrite result_emit_then, Hq;
      destruct (_ || _); try done; by destruct (Py.contains _ (error_code e)).
  - rewrite Hlog, filter_app, filter_cons_True by done.
    rewrite !filter_none; [done|..].
    + apply (Forall_impl _ _ _ Ha). by intros ev ->.
    + apply (Forall_impl _ _ _ Hb). by intros ev ->.
  - intros Hrate Hnot. unfold submit. rewrite log_bind, Hv. cbn [result].
    rewrite Hv. rewrite !log_emit_then, log_bind.
    destruct (length names <=? 5)%nat; cbn [log result mret run_ret];
      rewrite log_emit_then, Hq, Hnot, Hrate; cbn [log emit exit mbind run_bind result app];
      apply last_app_end; apply (last_app_end [_; _]);
      first [done | by apply last_app_end].
Qed.

Lemma execute_query_refused_witness :
  let client :=
    {| paginate := fun _ => inr [];
       describe_log_groups := fun _ _ => inr [];
       start_query := fun _ _ _ _ _ =>
         inl (ClientError "LimitExceededException" "Rate exceeded") |} in
  result (execute_query client (zone 0) (zone 0) "fields @message"
            ["/aws/lambda/a"] "1733395200000" "1733395300000" 50)
  = Exit 1.
Proof.
  cbn zeta.
  refine (proj1 (execute_query_refused _ _ _ _ _ _ _ _ 1733395200000
                   1733395300000 ["/aws/lambda/a"]
                   (ClientError "LimitExceededException" "Rate exceeded")
                   _ _ _ _ _)); (reflexivity || lia).
Defined.

(** X10.  A name without wildcard whose lookup raises with
    ResourceNotFoundException in its text does not reach the caller as an
    exception: [execute_query] prints the error and leaves with status 1,
    and no query is started. *)
Theorem execute_query_missing_log_group (client : logs_client)
    (clk_start clk_end : clock) (query name : string) (rest : list string)
    (start_time end_time : string) (limit start_epoch end_epoch : Z)
    (e : exception) :
  parse_time clk_start start_time = Return start_epoch ->
  parse_time clk_end end_time = Return end_epoch ->
  start_epoch < end_epoch ->
  Py.contains "*" name = false ->
  describe_log_groups client name 1 = inl e ->
  not_found e = true ->
  execute_query client clk_start clk_end query (name :: rest)
    start_time end_time limit
  = Run [Stderr ("✗ Error: Log group not found: " +:+ name +:+ nl +:+
                 "Please verify the log group exists and you have permissions to access it.")]
        (Exit 1).
Proof.
  intros Hs He Hlt Hlit Hlookup Hnf.
  rewrite (execute_query_resolved _ _ _ _ _ _ _ _ start_epoch end_epoch) by done.
  unfold submit, validate_log_groups. cbn [expand_log_groups].
  by rewrite Hlit, Hlookup, Hnf.
Qed.

Lemma execute_query_missing_log_group_witness :
  let client :=
    {| paginate := fun _ => inr [];
       describe_log_groups := fun _ _ =>
         inl (ClientError "ResourceNotFoundException" "ResourceNotFoundException");
       start_query := fun _ _ _ _ _ => inr "q" |} in
  execute_query client (zone 0) (zone 0) "fields @message" ["/aws/lambda/a"]
    "1733395200000" "1733395300000" 50
  = Run [Stderr ("✗ Error: Log group not found: " +:+ "/aws/lambda/a" +:+ nl +:+
                 "Please verify the log group exists and you have permissions to access it.")]
        (Exit 1).
Proof.
  cbn zeta.
  apply (execute_query_missing_log_group _ _ _ _ _ _ _ _ _ 1733395200000
           1733395300000
           (ClientError "ResourceNotFoundException" "ResourceNotFoundException"));
    (reflexivity || lia).
Defined.

(** ** PollingLoop, continued *)

Lemma poll_final (ops : float_ops) (t0 last : reading ops) (interval : Z)
    (p : reading ops * (exception + response))
    (rest : list (reading ops * (exception + response))) :
  final p ->
  poll ops t0 last interval (p :: rest) = poll ops t0 last interval [p]
  /\ filter (fun ev => is_sleep ev = true) (log (poll ops t0 last interval [p])) = []
  /\ result (poll ops t0 last interval [p])
     = match p.2 with
       | inr r => if String.eqb (status r) "Complete" then Return r else Exit 1
       | inl _ => Exit 1
       end.
Proof.
  destruct p as [t [e|r]]; unfold final; cbn [snd]; [done|].
  intros Hterm.
  destruct (poll_terminal ops t0 interval last t r [] Hterm)
    as (tail & [Htail _] & Hlog & Hres).
  split; [|split; [|done]].
  - cbn [poll]. by rewrite Hterm.
  - rewrite Hlog. apply filter_none, Forall_app. split.
    + apply Forall_forall. by intros ev (line & -> & _)%list_elem_of_fmap.
    + apply (Forall_impl _ _ _ Htail). by intros [].
Qed.

Lemma poll_running_step (ops : float_ops) (t0 last : reading ops)
    (interval : Z) (t : reading ops) (r : response)
    (rest : list (reading ops * (exception + response))) :
  is_terminal_state r = false ->
  let due := fge ops (fsub ops t last) interval in
  poll ops t0 last interval ((t, inr r) :: rest)
  = ((if due then _print_status_update ops r (fsub ops t t0) else mret tt);;
     emit (Sleep 2);;
     poll ops t0 (if due then t else last) interval rest).
Proof. intros Hrun. cbn [poll]. by rewrite Hrun, orb_false_r. Qed.

Lemma filter_sleep_lines (lines : list string) :
  filter (fun ev => is_sleep ev = true) (map Stdout lines) = [].
Proof.
  apply filter_none, Forall_forall. by intros ev (line & -> & _)%list_elem_of_fmap.
Qed.

(** X11.  The loop ends at the first poll that fails or finds a terminal
    state: later polls are not made, one sleep of two seconds was taken
    for each poll before it, and the end is the answer for Complete and
    exit status 1 for a failed fetch and for every other terminal
    state. *)
Theorem wait_for_results_stops_at_first_final (ops : float_ops)
    (t0 : reading ops) (interval : Z)
    (pre rest : list (reading ops * (exception + response)))
    (p : reading ops * (exception + response)) :
  Forall running pre -> final p ->
  let r := wait_for_results ops t0 (pre ++ p :: rest) interval in
  r = wait_for_results ops t0 (pre ++ [p]) interval
  /\ filter (fun ev => is_sleep ev = true) (log r) = replicate (length pre) (Sleep 2)
  /\ result r
     = match p.2 with
       | inr a => if String.eqb (status a) "Complete" then Return a else Exit 1
       | inl _ => Exit 1
       end.
Proof.
  intros Hpre Hfin. cbn zeta. unfold wait_for_results.
  assert (H : forall last,
    poll ops t0 last interval (pre ++ p :: rest)
    = poll ops t0 last interval (pre ++ [p])
    /\ filter (fun ev => is_sleep ev = true)
         (log (poll ops t0 last interval (pre ++ [p])))
       = replicate (length pre) (Sleep 2)
    /\ result (poll ops t0 last interval (pre ++ [p]))
       = match p.2 with
         | inr a => if String.eqb (status a) "Complete" then Return a else Exit 1
         | inl _ => Exit 1
         end).
  { induction Hpre as [|[tc ans] pre (rc & Hans & Hrc) _ IH]; intros last.
    - cbn [app length replicate]. by apply poll_final.
    - cbn in Hans. subst ans. rewrite <- !app_comm_cons.
      destruct (poll_running ops t0 interval last tc rc (pre ++ [p]) Hrc)
        as [Hlog Hres].
      cbn zeta in Hlog, Hres.
      destruct (IH (if fge ops (fsub ops tc last) interval then tc else last))
        as (IH1 & IH2 & IH3).
      split; [|split].
      + rewrite !(poll_running_step ops t0 _ interval) by done. by rewrite IH1.
      + rewrite Hlog, filter_app, filter_cons_True, IH2 by done.
        destruct (fge _ _ _); [|done]. by rewrite filter_sleep_lines.
      + by rewrite Hres. }
  destruct (H t0) as (H1 & H2 & H3).
  split; [|split].
  - by rewrite H1.
  - by rewrite H1, log_emit_then, filter_cons_False, H2.
  - by rewrite H1, result_emit_then.
Qed.

Lemma wait_for_results_stops_at_first_final_witness :
  result (wait_for_results binary64 100%Q
            ([(100%Q, inr (answer "Running"))]
             ++ (102%Q, inr (answer "Cancelled"))
                :: [(104%Q, inr (answer "Complete"))]) 30)
  = Exit 1.
Proof.
  refine (proj2 (proj2 (wait_for_results_stops_at_first_final binary64
                          100%Q 30
                          [(100%Q, inr (answer "Running"))]
                          [(104%Q, inr (answer "Complete"))]
                          (102%Q, inr (answer "Cancelled")) _ _))).
  - repeat constructor. by exists (answer "Running").
  - reflexivity.
Defined.

(** X12.  The loop has no bound of its own: as long as every poll finds
    a state that is not terminal it goes on, sleeping two seconds after
    each poll and printing nothing on stderr. *)
Theorem wait_for_results_goes_on (ops : float_ops) (t0 : reading ops)
    (interval : Z) (polls : list (reading ops * (exception + response))) :
  Forall running polls ->
  let r := wait_for_results ops t0 polls interval in
  result r = Polling
  /\ filter (fun ev => is_sleep ev = true) (log r)
     = replicate (length polls) (Sleep 2)
  /\ Forall (fun ev => ~ is_stderr ev) (log r).
Proof.
  intros Hrun. cbn zeta. unfold wait_for_results.
  rewrite result_emit_then, log_emit_then, filter_cons_False by done.
  assert (H : forall last,
    result (poll ops t0 last interval polls) = Polling
    /\ filter (fun ev => is_sleep ev = true) (log (poll ops t0 last interval polls))
       = replicate (length polls) (Sleep 2)
    /\ Forall (fun ev => ~ is_stderr ev) (log (poll ops t0 last interval polls))).
  { induction Hrun as [|[tc ans] polls (rc & Hans & Hrc) _ IH]; intros last.
    - by repeat split.
    - cbn in Hans. subst ans.
      destruct (poll_running ops t0 interval last tc rc polls Hrc) as [Hlog Hres].
      cbn zeta in Hlog, Hres.
      destruct (IH (if fge ops (fsub ops tc last) interval then tc else last))
        as (IH1 & IH2 & IH3).
      rewrite Hlog, Hres, filter_app, filter_cons_True, IH2 by done.
      split; [done|split].
      + destruct (fge _ _ _); [|done]. by rewrite filter_sleep_lines.
      + apply Forall_app. split; [|constructor; [by intros []|done]].
        destruct (fge _ _ _); [|done].
        apply Forall_forall. by intros ev (line & -> & _)%list_elem_of_fmap []. }
  destruct (H t0) as (H1 & H2 & H3). repeat split; try done.
  constructor; [by intros []|done].
Qed.

Lemma wait_for_results_goes_on_witness :
  result (wait_for_results binary64 100%Q
            [(100%Q, inr (answer "Running")); (102%Q, inr (answer "Scheduled"))]
            30)
  = Polling.
Proof.
  refine (proj1 (wait_for_results_goes_on binary64 100%Q 30
                   [(100%Q, inr (answer "Running"));
                    (102%Q, inr (answer "Scheduled"))] _)).
  repeat constructor; [by exists (answer "Running")|by exists (answer "Scheduled")].
Defined.

Lemma poll_spaced (ops : float_ops) (t0 : reading ops) (interval : Z)
    (polls : list (reading ops * response)) (last : reading ops) :
  Forall (fun p => is_terminal_state p.2 = false) polls ->
  exists updates,
    updates `sublist_of` polls
    /\ spaced ops interval last (map fst updates)
    /\ filter (fun ev => is_sleep ev = false)
         (log (poll ops t0 last interval (map (fun p => (p.1, inr p.2)) polls)))
       = concat (map (fun p => map Stdout (status_lines ops p.2 (fsub ops p.1 t0)))
                     updates).
Proof.
  intros Hrun. revert last.
  induction Hrun as [|[t r] polls Hr _ IH]; intros last.
  { exists []. by repeat split. }
  cbn [fst snd] in Hr. cbn [map fst snd].
  destruct (poll_running ops t0 interval last t r
              (map (fun p => (p.1, inr p.2)) polls) Hr) as [Hlog _].
  cbn zeta in Hlog. rewrite Hlog. clear Hlog.
  destruct (fge ops (fsub ops t last) interval) eqn:Hdue.
  - destruct (IH t) as (updates & Hsub & Hspaced & Hlines).
    exists ((t, r) :: updates). split; [by apply sublist_skip|].
    split; [done|].
    rewrite filter_app, filter_cons_False, Hlines by (by intros [=]).
    cbn [map concat fst snd]. f_equal.
    apply filter_all, Forall_forall. by intros ev (line & -> & _)%list_elem_of_fmap.
  - destruct (IH last) as (updates & Hsub & Hspaced & Hlines).
    exists updates. split; [by apply sublist_cons|]. split; [done|].
    by rewrite filter_app, filter_cons_False, Hlines by (by intros [=]).
Qed.

(** X13.  The update interval is kept, as the loop measures it: while
    the query is still going, the updates printed are those of some of
    the polls, in order, and the clock readings of these polls pass the
    loop's own test, reading minus reading of the update before (the
    start of the wait for the first) at least [update_interval].  This
    holds whatever the clock reads and however its floating-point
    arithmetic rounds. *)
Theorem wait_for_results_updates_spaced (ops : float_ops) (t0 : reading ops)
    (interval : Z) (polls : list (reading ops * response)) :
  Forall (fun p => is_terminal_state p.2 = false) polls ->
  exists updates,
    updates `sublist_of` polls
    /\ spaced ops interval t0 (map fst updates)
    /\ filter (fun ev => is_sleep ev = false)
         (log (wait_for_results ops t0 (map (fun p => (p.1, inr p.2)) polls)
                 interval))
       = Stdout "Waiting for query to complete..."
         :: concat (map (fun p => map Stdout
                                    (status_lines ops p.2 (fsub ops p.1 t0)))
                        updates).
Proof.
  intros Hrun.
  destruct (poll_spaced ops t0 interval polls t0 Hrun)
    as (updates & Hsub & Hspaced & Hlines).
  exists updates. split; [done|]. split; [done|].
  unfold wait_for_results.
  by rewrite log_emit_then, filter_cons_True, Hlines.
Qed.

Lemma wait_for_results_updates_spaced_witness :
  exists updates,
    updates `sublist_of` [(100%Q, answer "Running"); (131%Q, answer "Running");
                          (133%Q, answer "Running")]
    /\ spaced binary64 30 100%Q (map fst updates)
    /\ filter (fun ev => is_sleep ev = false)
         (log (wait_for_results binary64 100%Q
                 (map (fun p => (p.1, inr p.2))
                      [(100%Q, answer "Running"); (131%Q, answer "Running");
                       (133%Q, answer "Running")]) 30))
       = Stdout "Waiting for query to complete..."
         :: concat (map (fun p => map Stdout
                                    (status_lines binary64 p.2
                                       (fsub binary64 p.1 100%Q)))
                        updates).
Proof.
  apply (wait_for_results_updates_spaced binary64 100%Q 30
           [(100%Q, answer "Running"); (131%Q, answer "Running");
            (133%Q, answer "Running")]).
  by repeat constructor.
Defined.

(** ** ResultFormatter, continued *)

(** *** The schema *)

Lemma elem_of_sorted (k : string) (l : list string) : k ∈ sorted l <-> k ∈ l.
Proof. unfold sorted. by rewrite merge_sort_Permutation. Qed.

Lemma elem_of_schema (res : list (list result_field)) (exclude_metadata : bool)
    (f : string) :
  f ∈ schema res exclude_metadata
  <-> f ∈ all_fields res
      /\ (exclude_metadata = true -> Py.startswith f "@" = false).
Proof.
  assert (H : f ∈ filter (fun f => f ∈ all_fields res) metadata_fields
                  ++ sorted (filter (fun f => f ∉ metadata_fields)
                               (elements (all_fields res)))
              <-> f ∈ all_fields res).
  { rewrite elem_of_app, elem_of_sorted, !list_elem_of_filter, elem_of_elements.
    destruct (decide (f ∈ metadata_fields)); tauto. }
  unfold schema. destruct exclude_metadata.
  - rewrite list_elem_of_filter, H. tauto.
  - rewrite H. split; [by intros ?|tauto].
Qed.

(** X14.  The schema lists each field name that occurs in some row
    exactly once; with [exclude_metadata] the names that start with an
    at sign are left out and nothing else.  The four metadata names
    come first, in their fixed order, and the other names follow in
    ascending order. *)
Theorem schema_shape (res : list (list result_field)) (exclude_metadata : bool) :
  NoDup (schema res exclude_metadata)
  /\ (forall f,
        f ∈ schema res exclude_metadata
        <-> (exists row, row ∈ res /\ f ∈ map field row)
            /\ (exclude_metadata = true -> Py.startswith f "@" = false))
  /\ exists marked others,
       schema res false = marked ++ others
       /\ marked `sublist_of` metadata_fields
       /\ Forall (fun f => f ∉ metadata_fields) others
       /\ StronglySorted String.le others.
Proof.
  assert (Hothers : forall f,
            f ∈ sorted (filter (fun f => f ∉ metadata_fields)
                          (elements (all_fields res)))
            -> f ∉ metadata_fields).
  { intros f Hf%elem_of_sorted%list_elem_of_filter. tauto. }
  split; [|split].
  - assert (Hfull : NoDup (schema res false)).
    { unfold schema. apply NoDup_app. split; [|split].
      + apply NoDup_filter. unfold metadata_fields.
        by apply (bool_decide_unpack _).
      + intros f Hf%list_elem_of_filter Hf'%Hothers. tauto.
      + unfold sorted. rewrite merge_sort_Permutation.
        apply NoDup_filter, NoDup_elements. }
    destruct exclude_metadata; [|done].
    unfold schema in *. by apply NoDup_filter.
  - intros f. by rewrite elem_of_schema, elem_of_all_fields.
  - eexists _, _. split; [reflexivity|]. split; [apply sublist_filter|].
    split; [by apply Forall_forall|].
    unfold sorted. apply StronglySorted_merge_sort; apply _.
Qed.

(** *** The CSV writer and the excluded names *)

Lemma elem_of_first_occurrences (k : string) (l : list string) :
  k ∈ first_occurrences l <-> k ∈ l.
Proof.
  induction l as [|x l IH]; [done|]. cbn [first_occurrences].
  rewrite !elem_of_cons, list_elem_of_filter, IH.
  destruct (decide (k = x)); tauto.
Qed.

Lemma _dict_to_list_outside (fieldnames : list string) (row : list result_field)
    (k : string) :
  k ∈ map field row -> k ∉ fieldnames ->
  exists e, _dict_to_list fieldnames (row_of_result row) = inl e.
Proof.
  intros Hin Hout. unfold _dict_to_list.
  assert (H : k ∈ filter (fun k => k ∉ fieldnames) (keys (row_of_result row))).
  { apply list_elem_of_filter. split; [done|].
    by rewrite keys_row_of_result, elem_of_first_occurrences. }
  destruct (filter _ _); [by apply elem_of_nil in H|]. eauto.
Qed.

(** The writer gets through all rows exactly if every name of every row
    is a field name. *)
Lemma writerows_failure (fieldnames : list string) (res : list (list result_field)) :
  (writerows fieldnames (map row_of_result res)).2 = None
  <-> Forall (Forall (fun f => field f ∈ fieldnames)) res.
Proof.
  split.
  - induction res as [|row res IH]; intros Hw; [done|].
    cbn [map writerows] in Hw.
    destruct (decide (Forall (fun f => field f ∈ fieldnames) row)) as [Hrow|Hrow].
    + constructor; [done|]. apply IH.
      rewrite _dict_to_list_inside in Hw.
      * by destruct (writerows fieldnames (map row_of_result res)).
      * intros k (f & <- & Hf%list_elem_of_In)%list_elem_of_In%in_map_iff.
        rewrite Forall_forall in Hrow. by apply Hrow.
    + apply not_Forall_Exists in Hrow; [|apply _].
      apply Exists_exists in Hrow as (f & Hf & Hout).
      destruct (_dict_to_list_outside fieldnames row (field f)) as [e He];
        [|done|by rewrite He in Hw].
      apply list_elem_of_In, in_map, list_elem_of_In, Hf.
  - intros H. rewrite writerows_inside; [done|].
    intros row k Hrow (f & <- & Hf%list_elem_of_In)%list_elem_of_In%in_map_iff.
    rewrite Forall_forall in H. specialize (H row Hrow).
    rewrite Forall_forall in H. by apply H.
Qed.

Lemma _format_csv_result (rows : list pydict) (fields : list string)
    (output_file : option string) :
  result (_format_csv rows fields output_file)
  = match (writerows fields rows).2 with
    | Some e => Raise e
    | None => Return (truthy output_file)
    end.
Proof.
  unfold _format_csv. destruct (writerows fields rows) as [body [e|]];
    by destruct (truthy output_file).
Qed.

(** X15.  When the query gave results, the CSV writer raises exactly if
    [exclude_metadata] is set and some row carries a field whose name
    starts with an at sign; otherwise it returns the place the text went
    to.  Without [exclude_metadata] it never raises, whatever the rows. *)
Theorem format_results_csv_raises_iff (row0 : list result_field)
    (rest : list (list result_field)) (output_file : option string)
    (exclude_metadata : bool) :
  row0 <> [] ->
  let r := result (format_results (row0 :: rest) "csv" output_file
                     exclude_metadata) in
  ((exists e, r = Raise e)
   <-> exclude_metadata = true
       /\ exists row f, row ∈ row0 :: rest /\ f ∈ row
                        /\ Py.startswith (field f) "@" = true)
  /\ ((forall e, r <> Raise e) -> r = Return (truthy output_file)).
Proof.
  intros Hrow0. cbn zeta.
  rewrite format_results_dispatch by (try done; by destruct row0).
  cbn zeta. change (String.eqb "csv" "json") with false.
  change (String.eqb "csv" "csv") with true. cbn match.
  rewrite _format_csv_result.
  pose proof (writerows_failure (schema (row0 :: rest) exclude_metadata)
                (row0 :: rest)) as Hw.
  assert (Hin : forall row f, row ∈ row0 :: rest -> f ∈ row ->
                  field f ∈ all_fields (row0 :: rest)).
  { intros row f Hrow Hf. apply elem_of_all_fields. exists row.
    split; [done|]. by apply list_elem_of_In, in_map, list_elem_of_In. }
  destruct (writerows _ _).2 as [e|] eqn:E.
  - split; [|intros H; by destruct (H e)].
    split; [intros _|by eauto].
    destruct (decide (Forall (Forall (fun f =>
                field f ∈ schema (row0 :: rest) exclude_metadata)) (row0 :: rest)))
      as [Hall|Hnot]; [by apply Hw in Hall|].
    apply not_Forall_Exists in Hnot; [|apply _].
    apply Exists_exists in Hnot as (row & Hrow & Hnot).
    apply not_Forall_Exists in Hnot; [|apply _].
    apply Exists_exists in Hnot as (f & Hf & Hout).
    unfold compose in Hout. rewrite elem_of_schema in Hout.
    destruct exclude_metadata; [|destruct Hout; by split; [eapply Hin|]].
    split; [done|]. exists row, f. repeat split; try done.
    destruct (Py.startswith (field f) "@") eqn:Hat; [done|].
    destruct Hout. by split; [eapply Hin|].
  - split; [|done]. split; [by intros [e He]|].
    intros (-> & row & f & Hrow & Hf & Hat).
    destruct Hw as [Hw _]. specialize (Hw eq_refl).
    rewrite Forall_forall in Hw. specialize (Hw row Hrow).
    rewrite Forall_forall in Hw. specialize (Hw f Hf).
    apply elem_of_schema in Hw as [_ Hw]. specialize (Hw eq_refl). congruence.
Qed.

Lemma format_results_csv_raises_iff_witness :
  exists e,
    result (format_results [[fv "@message" "hello"; fv "level" "ERROR"]] "csv"
              None true)
    = Raise e.
Proof.
  refine (proj2 (proj1 (format_results_csv_raises_iff
                          [fv "@message" "hello"; fv "level" "ERROR"] [] None
                          true _)) _); [done|].
  split; [done|].
  exists [fv "@message" "hello"; fv "level" "ERROR"], (fv "@message" "hello").
  repeat split; by left.
Defined.

(** *** The table *)

Lemma length_repeat_char (c : ascii) (n : nat) :
  String.length (Py.repeat_char c n) = n.
Proof. induction n as [|n IH]; [done|]. cbn. by rewrite IH. Qed.

Lemma length_ljust (s : string) (w : nat) :
  String.length (Py.ljust s w) = Nat.max (String.length s) w.
Proof. unfold Py.ljust. rewrite length_app_string, length_repeat_char. lia. Qed.

Lemma length_substring_0 (n : nat) (s : string) :
  String.length (String.substring 0 n s) = Nat.min n (String.length s).
Proof.
  revert s. induction n as [|n IH]; intros [|c s]; try done. cbn. by rewrite IH.
Qed.

Lemma length_clip (v : string) :
  String.length (clip v) = Nat.min 50 (String.length v).
Proof.
  unfold clip. destruct (Nat.ltb_spec 50 (String.length v)) as [H|H]; [|lia].
  rewrite length_app_string, length_substring_0.
  change (String.length "...") with 3%nat. lia.
Qed.

Lemma length_join_map {A} (sep1 sep2 : string) (g1 g2 : A -> string) (l : list A) :
  String.length sep1 = String.length sep2 ->
  (forall x, x ∈ l -> String.length (g1 x) = String.length (g2 x)) ->
  String.length (Py.join sep1 (map g1 l)) = String.length (Py.join sep2 (map g2 l)).
Proof.
  intros Hsep. induction l as [|x l IH]; intros Hg; [done|].
  destruct l as [|y l]; [apply Hg; by left|].
  change (String.length (g1 x +:+ sep1 +:+ Py.join sep1 (map g1 (y :: l)))
          = String.length (g2 x +:+ sep2 +:+ Py.join sep2 (map g2 (y :: l)))).
  rewrite !length_app_string, Hsep, IH, (Hg x) by (try left; intros; apply Hg; by right).
  done.
Qed.

Section Widths.

Variable fields : list string.

Lemma widths_row (row : pydict) (over : list string) (w : gmap string nat)
    (g : string) :
  let w' := foldl (fun w f =>
                     <[f := Nat.max (w !!! f) (String.length (cell row f))]> w)
                  w over in
  (w !!! g <= w' !!! g)%nat
  /\ (g ∈ over -> (String.length (cell row g) <= w' !!! g)%nat).
Proof.
  cbn zeta. revert w. induction over as [|f over IH]; intros w.
  { split; [done|]. by intros ?%elem_of_nil. }
  cbn [foldl].
  destruct (IH (<[f := Nat.max (w !!! f) (String.length (cell row f))]> w))
    as [IH1 IH2].
  rewrite lookup_total_insert in IH1.
  split.
  - destruct (decide (f = g)) as [->|]; lia.
  - intros [->|Hin]%elem_of_cons; [|by apply IH2].
    rewrite decide_True in IH1 by done. lia.
Qed.

Lemma widths_rows (rows : list pydict) (w : gmap string nat) (g : string) :
  let w' :=
    foldl (fun w row =>
             foldl (fun w f =>
                      <[f := Nat.max (w !!! f) (String.length (cell row f))]> w)
                   w fields)
          w rows in
  (w !!! g <= w' !!! g)%nat
  /\ (g ∈ fields -> forall row, row ∈ rows ->
      (String.length (cell row g) <= w' !!! g)%nat).
Proof.
  cbn zeta. revert w. induction rows as [|row rows IH]; intros w.
  { split; [done|]. by intros _ row ?%elem_of_nil. }
  cbn [foldl]. destruct (widths_row row fields w g) as [H1 H2].
  cbn zeta in H1, H2.
  set (w1 := foldl (fun w f =>
                      <[f := Nat.max (w !!! f) (String.length (cell row f))]> w)
                   w fields) in *.
  destruct (IH w1) as [IH1 IH2].
  split; [lia|].
  intros Hg row' [->|Hin]%elem_of_cons; [|by apply IH2].
  specialize (H2 Hg). lia.
Qed.

Lemma widths_start (over : list string) (g : string) :
  g ∈ over ->
  (list_to_map (map (fun f => (f, String.length f)) over) : gmap string nat) !!! g
  = String.length g.
Proof.
  induction over as [|f over IH]; [by intros ?%elem_of_nil|].
  intros Hin. cbn [map list_to_map foldr]. cbn.
  rewrite lookup_total_insert. destruct (decide (f = g)) as [->|Hne]; [done|].
  apply IH. by apply elem_of_cons in Hin as [->|Hin].
Qed.

Lemma column_widths_bounds (rows : list pydict) (g : string) :
  (column_widths rows fields !!! g <= 50)%nat
  /\ (g ∈ fields ->
      (Nat.min 50 (String.length g) <= column_widths rows fields !!! g)%nat
      /\ forall row, row ∈ rows ->
           (Nat.min 50 (String.length (cell row g))
            <= column_widths rows fields !!! g)%nat).
Proof.
  unfold column_widths. cbn zeta. rewrite lookup_total_fmap.
  set (start := list_to_map (map (fun f => (f, String.length f)) fields)
                : gmap string nat).
  destruct (widths_rows rows start g) as [H1 H2]. cbn zeta in H1, H2.
  match goal with |- context [?m !! g] => set (final_widths := m) in * end.
  assert (Htotal : final_widths !!! g = default 0%nat (final_widths !! g))
    by (rewrite lookup_total_alt; reflexivity).
  split.
  - destruct (final_widths !! g); [apply Nat.le_min_l|]. cbv. lia.
  - intros Hg. specialize (H2 Hg).
    unfold start in H1. rewrite (widths_start fields g Hg) in H1.
    destruct (final_widths !! g) as [n|] eqn:E.
    + cbn in Htotal. split; [lia|]. intros row Hrow. specialize (H2 row Hrow). lia.
    + cbn in Htotal. split; [lia|]. intros row Hrow. specialize (H2 row Hrow). lia.
Qed.

End Widths.

(** X17.  When no field name is longer than 50 characters the table is
    a rectangle: the header, the rule under it and every row have the
    same length, at most 53 characters for each column.  (A longer name
    is printed in full in the header while its column is 50 wide.) *)
Theorem table_lines_rectangular (rows : list pydict) (fields : list string) :
  Forall (fun f => (String.length f <= 50)%nat) fields ->
  exists n,
    (n <= 53 * length fields)%nat
    /\ Forall (fun line => String.length line = n) (table_lines rows fields).
Proof.
  intros Hnames. rewrite Forall_forall in Hnames.
  set (w := fun f => column_widths rows fields !!! f).
  exists (String.length
            (Py.join "-+-" (map (fun f => Py.repeat_char "-" (w f)) fields))).
  split.
  - clear Hnames. generalize fields at 1 2. intros l.
    induction l as [|f l IH]; [cbn; lia|].
    pose proof (proj1 (column_widths_bounds fields rows f)) as Hf. fold (w f) in Hf.
    destruct l as [|f' l]; [cbn [map Py.join length]; rewrite length_repeat_char; lia|].
    change (String.length
              (Py.repeat_char "-" (w f) +:+ "-+-"
               +:+ Py.join "-+-" (map (fun f => Py.repeat_char "-" (w f)) (f' :: l)))
            <= 53 * length (f :: f' :: l))%nat.
    rewrite !length_app_string, length_repeat_char.
    cbn [String.length length] in *. lia.
  - unfold table_lines. cbn zeta. fold w.
    repeat constructor.
    + apply length_join_map; [done|]. intros f Hf.
      rewrite length_ljust, length_repeat_char.
      pose proof (proj1 (proj2 (column_widths_bounds fields rows f) Hf)) as H.
      unfold w. specialize (Hnames f Hf). lia.
    + apply Forall_forall. intros line (row & <- & Hrow%list_elem_of_In)%list_elem_of_In%in_map_iff.
      apply length_join_map; [done|]. intros f Hf.
      rewrite length_ljust, length_repeat_char, length_clip.
      pose proof (proj2 (proj2 (column_widths_bounds fields rows f) Hf) row Hrow) as H.
      unfold w. lia.
Qed.

Lemma table_lines_rectangular_witness :
  exists n,
    (n <= 53 * length ["@message"; "level"])%nat
    /\ Forall (fun line => String.length line = n)
         (table_lines (map row_of_result tagged_rows) ["@message"; "level"]).
Proof.
  apply table_lines_rectangular. repeat constructor; cbn; lia.
Defined.

(** A name of 51 characters: the header is one character longer than the
    rule and the row. *)
Lemma table_lines_long_name :
  map String.length
    (table_lines [[("x", "1")]]
       ["a_field_name_that_is_longer_than_fifty_characters__"])
  = [51; 50; 50]%nat.
Proof. by vm_compute. Qed.

(** *** The file and the terminal *)

Lemma truthy_path (path : string) :
  path <> EmptyString -> truthy (Some path) = Some path.
Proof. by destruct path. Qed.

(** X18.  What goes to the file is what would go to the terminal: if,
    without an output file, the rows are printed as [text], then with
    the output file [path] the same [text] is written to it, one line
    on stdout names the file, and the path is returned.  (When there
    are no results, no file is written.) *)
Theorem format_results_file_matches_stdout (res : list (list result_field))
    (format path text : string) (exclude_metadata : bool) :
  path <> EmptyString ->
  res <> [] -> head res <> Some [] ->
  format_results res format None exclude_metadata
  = Run [Stdout text] (Return None) ->
  format_results res format (Some path) exclude_metadata
  = Run [FileWrite path text; Stdout ("✓ Results saved to: " +:+ path)]
        (Return (Some path)).
Proof.
  intros Hpath Hres Hrow0. rewrite !format_results_dispatch by done. cbn zeta.
  destruct (String.eqb format "json").
  { unfold _format_json. rewrite truthy_path by done. cbn [truthy].
    by intros [= <-]. }
  destruct (String.eqb format "csv").
  { unfold _format_csv. rewrite truthy_path by done. cbn [truthy].
    destruct (writerows _ _) as [body [e|]]; [done|]. by intros [= <-]. }
  destruct (String.eqb format "table"); [|done].
  unfold _format_table. rewrite truthy_path by done. cbn [truthy].
  destruct (map row_of_result res); [done|]. by intros [= <-].
Qed.

Lemma format_results_file_matches_stdout_witness :
  format_results unordered_rows "json" (Some "out.json") false
  = Run [FileWrite "out.json" (json_dumps (map row_of_result unordered_rows));
         Stdout ("✓ Results saved to: " +:+ "out.json")]
        (Return (Some "out.json")).
Proof.
  by apply (format_results_file_matches_stdout unordered_rows "json" "out.json"
              (json_dumps (map row_of_result unordered_rows)) false).
Defined.

(** ** The whole run *)

Lemma submit_no_file (client : logs_client) (query : string)
    (log_groups : list string) (start_time end_time : string)
    (limit start_epoch end_epoch : Z) :
  Forall (fun ev => is_file_write ev = false)
    (log (submit client query log_groups start_time end_time limit
            start_epoch end_epoch)).
Proof.
  unfold submit. rewrite log_bind.
  pose proof (validate_log_groups_log client log_groups) as Hv.
  assert (Hv' : Forall (fun ev => is_file_write ev = false)
                  (log (validate_log_groups client log_groups))).
  { apply (Forall_impl _ _ _ Hv). by intros []. }
  destruct (result (validate_log_groups client log_groups)) as [names|e| |] eqn:Hr;
    cbn zeta.
  - rewrite Hr. cbn [result]. rewrite !log_emit_then, log_bind.
    apply Forall_app. split; [done|]. do 2 (constructor; [done|]).
    apply Forall_app. split.
    + destruct (length names <=? 5)%nat; [|done].
      apply Forall_forall. by intros ev (g & <- & _)%list_elem_of_In%in_map_iff.
    + destruct (length names <=? 5)%nat; cbn [result mret run_ret];
        rewrite log_emit_then; (constructor; [done|]);
        (destruct (start_query client names start_epoch end_epoch query limit)
           as [err|qid]; [|by repeat constructor]);
        (destruct (_ || _); [done|]); destruct (Py.contains _ _);
        by repeat constructor.
  - destruct e; cbn [log result]; rewrite ?Hr, ?app_nil_r; try done.
    apply Forall_app. split; [done|]. by repeat constructor.
  - rewrite Hr. cbn [result]. by rewrite app_nil_r.
  - rewrite Hr. cbn [result]. by rewrite app_nil_r.
Qed.

Lemma execute_query_no_file (client : logs_client) (clk_start clk_end : clock)
    (query : string) (log_groups : list string) (start_time end_time : string)
    (limit : Z) :
  Forall (fun ev => is_file_write ev = false)
    (log (execute_query client clk_start clk_end query log_groups
            start_time end_time limit)).
Proof.
  destruct (parse_time clk_start start_time) as [s0|e0| |] eqn:Hs;
    [destruct (parse_time clk_end end_time) as [e1|e0| |] eqn:He|..].
  2-7: (unfold execute_query; rewrite Hs, ?He; try destruct e0; by constructor).
  destruct (Z.lt_ge_cases s0 e1) as [Hlt|Hge].
  - rewrite (execute_query_resolved _ _ _ _ _ _ _ _ s0 e1) by done.
    apply submit_no_file.
  - unfold execute_query. rewrite Hs, He.
    assert (Hb : (e1 <=? s0) = true) by (apply Z.leb_le; lia).
    unfold mbind at 1, run_bind at 1, lift; cbn. by rewrite Hb.
Qed.

Lemma lines_no_file (lines : list string) :
  Forall (fun ev => is_file_write ev = false) (map Stdout lines).
Proof. apply Forall_forall. by intros ev (line & -> & _)%list_elem_of_fmap. Qed.

Lemma poll_ends (ops : float_ops) (t0 : reading ops) (interval : Z)
    (polls : list (reading ops * (exception + response))) (last : reading ops) :
  Forall (fun ev => is_file_write ev = false)
    (log (poll ops t0 last interval polls))
  /\ forall r, result (poll ops t0 last interval polls) = Return r ->
              status r = "Complete".
Proof.
  revert last. induction polls as [|[t [e|r]] polls IH]; intros last; try done.
  { split; [by repeat constructor|done]. }
  destruct (is_terminal_state r) eqn:Hterm.
  - destruct (poll_terminal ops t0 interval last t r polls Hterm)
      as (tail & [Htail _] & -> & ->).
    split.
    + apply Forall_app. split; [apply lines_no_file|].
      apply (Forall_impl _ _ _ Htail). by intros [].
    + destruct (String.eqb_spec (status r) "Complete"); [|done]. by intros r' [= <-].
  - destruct (poll_running ops t0 interval last t r polls Hterm) as [-> ->].
    destruct (IH (if fge ops (fsub ops t last) interval then t else last))
      as [IH1 IH2].
    split; [|done]. apply Forall_app. split; [|by constructor].
    destruct (fge _ _ _); [apply lines_no_file|done].
Qed.

Lemma format_results_file (res : list (list result_field)) (format : string)
    (output_file : option string) (exclude_metadata : bool) (p t : string) :
  FileWrite p t ∈ log (format_results res format output_file exclude_metadata) ->
  truthy output_file = Some p.
Proof.
  assert (Hno : FileWrite p t ∈ [Stdout "No results returned from query"] -> 
                truthy output_file = Some p).
  { by intros [=]%list_elem_of_singleton. }
  destruct res as [|[|f row] res]; [apply Hno..|].
  rewrite format_results_dispatch by done. cbn zeta.
  assert (Hsaved : forall path text,
            FileWrite p t ∈ [FileWrite path text;
                             Stdout ("✓ Results saved to: " +:+ path)] ->
            Some path = Some p).
  { intros path text [[= -> ->]|[[=]|[]%elem_of_nil]%elem_of_cons]%elem_of_cons.
    done. }
  assert (Hprinted : forall text, FileWrite p t ∈ [Stdout text] ->
                                  (None : option string) = Some p).
  { by intros text [=]%list_elem_of_singleton. }
  destruct (String.eqb format "json").
  { unfold _format_json. destruct (truthy output_file) as [path|];
      cbn [log mbind run_bind emit mret run_ret app result]; eauto. }
  destruct (String.eqb format "csv").
  { unfold _format_csv. destruct (writerows _ _) as [body [e|]];
      destruct (truthy output_file) as [path|];
      cbn [log mbind run_bind emit mret run_ret app result raise]; eauto.
    - by intros [= -> ->]%list_elem_of_singleton.
    - by intros []%elem_of_nil. }
  destruct (String.eqb format "table"); [|by intros []%elem_of_nil].
  unfold _format_table. destruct (map row_of_result _); [by intros []%elem_of_nil|].
  destruct (truthy output_file) as [path|];
    cbn [log mbind run_bind emit mret run_ret app result]; eauto.
Qed.

(** X19.  A time that [parse_time] rejects ends the whole run with one
    line on stderr and exit status 1, before anything is asked of the
    service: the line starts with "Error:" when [parse_time] raised its
    ValueError, and with "Unexpected error:" when it raised IndexError
    (a blank time). *)
Theorem execute_and_save_time_error (client : logs_client)
    (clk_start clk_end : clock) (ops : float_ops) (start_clock : reading ops)
    (polls : list (reading ops * (exception + response))) (query : string)
    (log_groups : list string) (start_time end_time : string)
    (output_file : option string) (format : string) (limit update_interval : Z)
    (exclude_metadata : bool) (e : exception) (m : string) :
  parse_time clk_start start_time = Raise e
  \/ (exists start_epoch, parse_time clk_start start_time = Return start_epoch
                          /\ parse_time clk_end end_time = Raise e) ->
  e = ValueError m \/ e = IndexError m ->
  execute_and_save client clk_start clk_end ops start_clock polls query
    log_groups start_time end_time output_file format limit update_interval
    exclude_metadata
  = Run [Stderr ((match e with
                  | ValueError _ => "✗ Error: "
                  | _ => "✗ Unexpected error: "
                  end) +:+ m)]
        (Exit 1).
Proof.
  intros Htime He.
  assert (Hq : execute_query client clk_start clk_end query log_groups
                 start_time end_time limit
               = Run [] (Raise (match e with
                                | ValueError m => QuerySyntaxError m
                                | _ => e
                                end))).
  { destruct Htime as [Hs|(start_epoch & Hs & Hend)]; unfold execute_query;
      rewrite Hs, ?Hend; by destruct e. }
  unfold execute_and_save. cbn zeta. rewrite Hq.
  by destruct He as [-> | ->].
Qed.

Lemma execute_and_save_time_error_witness :
  execute_and_save (catalog_client ["/aws/lambda/a"]) (zone 0) (zone 0)
    binary64 100%Q
    [(100%Q, inr (answer "Complete"))] "fields @message" ["/aws/lambda/a"]
    "   " "now" None "table" 10000 30 false
  = Run [Stderr ((match IndexError "string index out of range" with
                  | ValueError _ => "✗ Error: "
                  | _ => "✗ Unexpected error: "
                  end) +:+ "string index out of range")]
        (Exit 1).
Proof.
  apply (execute_and_save_time_error _ _ _ _ _ _ _ _ _ _ _ _ _ _ _
           (IndexError "string index out of range")
           "string index out of range").
  - left. reflexivity.
  - by right.
Defined.

(** X20.  A file is written only after the query was submitted and the
    wait ended with the status Complete.  Its name is the one that was
    asked for or, when none was given, the default name made of the
    first eight characters of the query id and the format, which no
    run in the table format uses. *)
Theorem execute_and_save_writes_after_completion (client : logs_client)
    (clk_start clk_end : clock) (ops : float_ops) (start_clock : reading ops)
    (polls : list (reading ops * (exception + response))) (query : string)
    (log_groups : list string) (start_time end_time : string)
    (output_file : option string) (format : string) (limit update_interval : Z)
    (exclude_metadata : bool) (p t : string) :
  FileWrite p t
  ∈ log (execute_and_save client clk_start clk_end ops start_clock polls query
           log_groups start_time end_time output_file format limit
           update_interval exclude_metadata) ->
  exists query_id response,
    result (execute_query client clk_start clk_end query log_groups
              start_time end_time limit) = Return query_id
    /\ result (wait_for_results ops start_clock polls update_interval)
       = Return response
    /\ status response = "Complete"
    /\ p = match output_file with
           | Some path => path
           | None => default_output_file query_id format
           end
    /\ (output_file = None -> format <> "table").
Proof.
  unfold execute_and_save. cbn zeta.
  set (q := execute_query client clk_start clk_end query log_groups
              start_time end_time limit).
  set (w := wait_for_results ops start_clock polls update_interval).
  match goal with |- context [result ?b] => set (body := b) end.
  intros Hin.
  assert (Hbody : FileWrite p t ∈ log body).
  { destruct (result body) as [u|e| |]; try done.
    destruct (is_query_error e); cbn [log] in Hin;
      apply elem_of_app in Hin as [Hin|[=]%list_elem_of_singleton]; done. }
  clear Hin. unfold body in Hbody. rewrite log_bind in Hbody.
  apply elem_of_app in Hbody as [Hbody|Hbody].
  { pose proof (execute_query_no_file client clk_start clk_end query log_groups
                  start_time end_time limit) as Hno.
    rewrite Forall_forall in Hno. by specialize (Hno _ Hbody). }
  destruct (result q) as [query_id|e| |] eqn:Hq;
    try by apply elem_of_nil in Hbody.
  rewrite log_bind in Hbody. apply elem_of_app in Hbody as [Hbody|Hbody].
  { unfold w, wait_for_results in Hbody. rewrite log_emit_then in Hbody.
    apply elem_of_cons in Hbody as [[=]|Hbody].
    pose proof (proj1 (poll_ends ops start_clock update_interval polls
                         start_clock)) as Hno.
    rewrite Forall_forall in Hno. by specialize (Hno _ Hbody). }
  destruct (result w) as [response|e| |] eqn:Hw;
    try by apply elem_of_nil in Hbody.
  exists query_id, response. split; [done|]. split; [done|]. split.
  { unfold w, wait_for_results in Hw. rewrite result_emit_then in Hw.
    by apply (proj2 (poll_ends ops start_clock update_interval polls
                       start_clock)). }
  rewrite log_bind in Hbody. apply elem_of_app in Hbody as [Hbody|Hbody].
  - apply format_results_file in Hbody.
    destruct output_file as [path|].
    + split; [|done]. destruct path; [done|]. by injection Hbody.
    + destruct (String.eqb_spec format "table") as [->|Hne]; [done|].
      cbn [negb] in Hbody. split; [|done]. by injection Hbody.
  - destruct (result (format_results _ _ _ _)); by apply elem_of_nil in Hbody.
Qed.

Lemma execute_and_save_writes_after_completion_witness :
  exists query_id response,
    result (execute_query (catalog_client ["/aws/lambda/a"]) (zone 0) (zone 0)
              "fields @message" ["/aws/lambda/a"]
              "1733395200000" "1733395300000" 50) = Return query_id
    /\ result (wait_for_results binary64 100%Q
                 [(100%Q, inr {| status := "Complete"; statistics := None;
                                 results := unordered_rows |})] 30)
       = Return response
    /\ status response = "Complete"
    /\ "cloudwatch_logs_results_q-0001.json"
       = match None with
         | Some path => path
         | None => default_output_file query_id "json"
         end
    /\ ((None : option string) = None -> "json" <> "table").
Proof.
  apply (execute_and_save_writes_after_completion
           (catalog_client ["/aws/lambda/a"]) (zone 0) (zone 0)
           binary64 100%Q
           [(100%Q, inr {| status := "Complete"; statistics := None;
                           results := unordered_rows |})]
           "fields @message" ["/aws/lambda/a"] "1733395200000" "1733395300000"
           None "json" 50 30 false
           "cloudwatch_logs_results_q-0001.json"
           (json_dumps (map row_of_result unordered_rows))).
  vm_compute. do 8 right. left.
Defined.

(** ** The list of log groups *)

Lemma split_cons (sep : ascii) (s : string) :
  exists x xs, split sep s = x :: xs.
Proof.
  induction s as [|c s (x & xs & IH)]; [by eexists _, _|]. cbn [split].
  destruct (Ascii.eqb c sep); [by eexists _, _|]. rewrite IH. by eexists _, _.
Qed.

Lemma split_piece (sep : ascii) (x rest : string) :
  Py.all_chars (fun c => negb (Ascii.eqb c sep)) x = true ->
  split sep x = [x]
  /\ split sep (x +:+ String sep rest) = x :: split sep rest.
Proof.
  induction x as [|c x IH]; intros Hx.
  - split; [done|]. change (EmptyString +:+ String sep rest) with (String sep rest).
    cbn [split]. by rewrite Ascii.eqb_refl.
  - cbn [Py.all_chars] in Hx. apply andb_true_iff in Hx as [Hc Hx].
    destruct (IH Hx) as [IH1 IH2]. rewrite app_cons. cbn [split].
    apply negb_true_iff in Hc. by rewrite Hc, IH1, IH2.
Qed.

(** X21.  The command line gives the log groups back as they were
    written: for names without a comma and without blanks at their
    ends, joined by commas, [main] hands [execute_and_save] the list of
    these names, in order.  Blanks around a name are dropped. *)
Theorem parse_log_groups_join (names : list string) :
  names <> [] ->
  Forall (fun x => Py.all_chars (fun c => negb (Ascii.eqb c ",")) x = true) names ->
  parse_log_groups (Py.join "," names) = map Py.strip names
  /\ (Forall (fun x => Py.strip x = x) names ->
      parse_log_groups (Py.join "," names) = names).
Proof.
  intros Hne Hnames.
  assert (H : split "," (Py.join "," names) = names).
  { induction Hnames as [|x l Hx Hl IH]; [done|].
    destruct l as [|y l]; [by apply split_piece|].
    change (Py.join "," (x :: y :: l)) with (x +:+ "," +:+ Py.join "," (y :: l)).
    change ("," +:+ Py.join "," (y :: l)) with (String "," (Py.join "," (y :: l))).
    rewrite (proj2 (split_piece "," x _ Hx)), IH; done. }
  unfold parse_log_groups. rewrite H. split; [done|].
  intros Hclean. clear -Hclean. induction Hclean as [|x l Hx _ IH]; [done|].
  cbn [map]. by rewrite Hx, IH.
Qed.

Lemma parse_log_groups_join_witness :
  parse_log_groups (Py.join "," ["/aws/lambda/a"; " /aws/lambda/b "; "/ecs/*"])
  = map Py.strip ["/aws/lambda/a"; " /aws/lambda/b "; "/ecs/*"].
Proof.
  refine (proj1 (parse_log_groups_join
                   ["/aws/lambda/a"; " /aws/lambda/b "; "/ecs/*"] _ _)).
  - done.
  - by repeat constructor.
Defined.

(** ** TimeResolver: the named days *)

Lemma local_to_seconds_fixed_fold (clk : clock) (off t : Z) (fold : bool) :
  (forall u, utcoffset clk u = off) ->
  min_second + 86400 <= t <= max_second - 86400 ->
  min_second <= t + off <= max_second ->
  local_to_seconds clk t fold = Return (t - off).
Proof.
  intros Hoff Ht Hlocal.
  assert (Hloc : forall u, min_second <= u + off <= max_second ->
                           local clk u = Return (u + off)).
  { intros u Hu. unfold local. rewrite Hoff.
    destruct (Z.ltb_spec (u + off) min_second); [lia|].
    destruct (Z.ltb_spec max_second (u + off)); [lia|done]. }
  unfold local_to_seconds.
  rewrite (Hloc t) by done. cbn [mbind outcome_bind].
  replace (t - (t + off - t)) with (t - off) by lia.
  rewrite (Hloc (t - off)) by lia. cbn [mbind outcome_bind].
  replace (t - off + off) with t by lia. rewrite Z.eqb_refl.
  destruct fold.
  - rewrite (Hloc (t - off + 86400)) by lia. cbn [mbind outcome_bind].
    replace (t - off + 86400 + off - (t - off + 86400)) with (t + off - t) by lia.
    by rewrite Z.eqb_refl.
  - rewrite (Hloc (t - off - 86400)) by lia. cbn [mbind outcome_bind].
    replace (t - off - 86400 + off - (t - off - 86400)) with (t + off - t) by lia.
    by rewrite Z.eqb_refl.
Qed.

Lemma epoch_ms_midnight (clk : clock) (off w : Z) (fold : bool) :
  (forall u, utcoffset clk u = off) ->
  -86400 <= off <= 86400 ->
  min_wall + 3 * us_per_day <= w <= max_wall - 3 * us_per_day ->
  epoch_ms clk (midnight {| wall := w; tzinfo := None; fold := fold |})
  = Return (w / us_per_day * 86400000 - 1000 * off).
Proof.
  intros Hoff Hrange Hw.
  destruct wall_range as (Hmin & Hmax & Hday). rewrite Hmin, Hmax, Hday in Hw.
  destruct second_range as [Hmins Hmaxs].
  unfold midnight; cbn [wall tzinfo Datetime.fold]. rewrite Hday.
  assert (Hlo : -719159 <= w / 86400000000)
    by (apply Z.div_le_lower_bound; lia).
  assert (Hhi : w / 86400000000 < 2932894)
    by (apply Z.div_lt_upper_bound; lia).
  set (d := w / 86400000000) in *.
  replace (w - w mod 86400000000) with (d * 86400 * 1000000)
    by (unfold d; pose proof (Z.div_mod w 86400000000); lia).
  unfold epoch_ms, timestamp, us_per_second; cbn [tzinfo wall Datetime.fold].
  rewrite Z.div_mul, Z.mod_mul by lia.
  rewrite (local_to_seconds_fixed_fold clk off) by (done || (rewrite Hmins, Hmaxs; lia)).
  cbn [mbind outcome_bind]. rewrite whole_seconds_ms by lia. f_equal. lia.
Qed.

(** X22.  The named days on a machine in a zone of fixed offset, the
    clock well inside the calendar: "today" is the midnight of the
    local day of the clock, whatever the time of day, and "yesterday"
    is 24 hours before it. *)
Theorem parse_time_today_yesterday (clk : clock) (off : Z) :
  (forall x, utcoffset clk x = off) ->
  -86400 <= off <= 86400 ->
  min_wall + 4 * us_per_day <= now_wall clk <= max_wall - 3 * us_per_day ->
  let today := now_wall clk / us_per_day * 86400000 - 1000 * off in
  parse_time clk "today" = Return today
  /\ parse_time clk "yesterday" = Return (today - 86400000).
Proof.
  intros Hoff Hrange Hnow. cbn zeta.
  destruct wall_range as (Hmin & Hmax & Hday).
  assert (Htoday : parse_time clk "today" = epoch_ms clk (midnight (now clk)))
    by reflexivity.
  assert (Hyesterday : parse_time clk "yesterday"
                       = (dt ← sub (now clk) (days 1); epoch_ms clk (midnight dt)))
    by reflexivity.
  split.
  - rewrite Htoday. unfold now. rewrite (epoch_ms_midnight clk off) by (done || lia).
    done.
  - rewrite Hyesterday.
    assert (Hsub : sub (now clk) (days 1)
                   = Return {| wall := now_wall clk - us_per_day; tzinfo := None;
                               fold := false |}).
    { unfold sub, now, days; cbn [wall tzinfo]. rewrite Z.mul_1_l.
      unfold Py.between.
      destruct (Z.leb_spec min_wall (now_wall clk - us_per_day)); [|lia].
      destruct (Z.leb_spec (now_wall clk - us_per_day) max_wall); [done|lia]. }
    rewrite Hsub. cbn [mbind outcome_bind].
    rewrite (epoch_ms_midnight clk off) by (done || lia). f_equal.
    rewrite Hday.
    replace (now_wall clk - 86400000000) with (now_wall clk + (-1) * 86400000000)
      by lia.
    rewrite Z.div_add by lia. lia.
Qed.

Lemma parse_time_today_yesterday_witness :
  parse_time (zone 3600) "today"
  = Return (now_wall (zone 3600) / us_per_day * 86400000 - 1000 * 3600)
  /\ parse_time (zone 3600) "yesterday"
     = Return (now_wall (zone 3600) / us_per_day * 86400000 - 1000 * 3600
               - 86400000).
Proof.
  apply (parse_time_today_yesterday (zone 3600) 3600);
    [reflexivity | lia | by vm_compute].
Defined.
